(** * MarketPulseAI: response normalisation, fail-open client, connection
      monitor and submit handlers

    A shallow embedding of [src/services/geminiService.ts] (with the
    [types] module appended to it) and of the stateful logic of
    [src/App.tsx].

    Conventions.
    - A JavaScript string is a [string]; a character stands for the code
      unit of the same number, so the model speaks of strings over
      U+0000..U+00FF.
    - TypeScript types are erased at run time, so whatever the code copies
      from the parsed response body stays a dynamically typed [value].
    - A string enum is the string it is at run time ([Sentiment.POSITIVE]
      is ["positive"]).
    - Code that can throw returns an [outcome]; [try_catch] is [try]/[catch].
    - The network is an argument: every function that awaits [fetch] takes
      the answer the environment gives to that one request. *)

From Stdlib Require Import String Ascii List ZArith Bool Arith Lia DecimalString.
Import ListNotations.
Local Open Scope string_scope.
Set Warnings "-register-all".

(* ================================================================== *)
(** ** JavaScript strings *)

Module JsString.

(** Code units that [String.prototype.trim] strips (WhiteSpace and
    LineTerminator of ECMAScript, below U+0100): TAB, LF, VT, FF, CR,
    SPACE and NO-BREAK SPACE. *)
Definition is_whitespace (c : ascii) : bool :=
  let n := nat_of_ascii c in
  (((9 <=? n) && (n <=? 13)) || (n =? 32) || (n =? 160))%nat.

(** Lower-case mapping of one code unit below U+0100: A..Z, and the
    Latin-1 capitals U+00C0..U+00DE except the multiplication sign. *)
Definition toLowerCase_char (c : ascii) : ascii :=
  let n := nat_of_ascii c in
  if (((65 <=? n) && (n <=? 90))
      || ((192 <=? n) && (n <=? 222) && negb (n =? 215)))%nat
  then ascii_of_nat (n + 32)
  else c.

Fixpoint toLowerCase (s : string) : string :=
  match s with
  | EmptyString => EmptyString
  | String c rest => String (toLowerCase_char c) (toLowerCase rest)
  end.

Fixpoint trimStart (s : string) : string :=
  match s with
  | EmptyString => EmptyString
  | String c rest => if is_whitespace c then trimStart rest else s
  end.

Fixpoint trimEnd (s : string) : string :=
  match s with
  | EmptyString => EmptyString
  | String c rest =>
      match trimEnd rest with
      | EmptyString => if is_whitespace c then EmptyString else String c EmptyString
      | kept => String c kept
      end
  end.

Definition trim (s : string) : string := trimEnd (trimStart s).

(** Decimal rendering of an integer, as a template literal does it. *)
Definition of_Z (n : Z) : string := NilZero.string_of_int (Z.to_int n).

End JsString.

(* ================================================================== *)
(** ** Dynamically typed values, exceptions *)

(** What [JSON.parse] can produce, plus [undefined] for a property that
    is not there.  An object is the list of its own properties, each name
    once ([Js.assoc] reads the first binding of a name).  A number
    is carried as an integer: the code only tests numbers for truthiness
    and otherwise hands them on or fails on them. *)
Inductive value : Type :=
| VUndefined
| VNull
| VBool (b : bool)
| VNum (n : Z)
| VStr (s : string)
| VArr (elems : list value)
| VObj (props : list (string * value)).

(** The exceptions that occur: [new Error(message)] thrown by the source,
    a [TypeError] raised by the engine (property read on [null] or
    [undefined], call of something that is not a function), a rejected
    [fetch], a body that [response.json()] cannot parse. *)
Inductive exn : Type :=
| Error (message : string)
| TypeError
| FetchFailed (reason : string)
| BodyNotJSON.

Inductive outcome (A : Type) : Type :=
| Return (a : A)
| Throw (e : exn).
Arguments Return {A} a.
Arguments Throw {A} e.

Definition bind {A B : Type} (m : outcome A) (k : A -> outcome B) : outcome B :=
  match m with
  | Return a => k a
  | Throw e => Throw e
  end.

Definition try_catch {A : Type} (body : outcome A) (handler : exn -> outcome A)
  : outcome A :=
  match body with
  | Return a => Return a
  | Throw e => handler e
  end.

Declare Scope js_scope.
Delimit Scope js_scope with js.
Notation "x <- m ;; k" := (bind m (fun x => k))
  (at level 61, m at next level, right associativity) : js_scope.
Local Open Scope js_scope.

(** Left-to-right [Array.prototype.map] with a callback that may throw:
    the first exception aborts the traversal. *)
Fixpoint map_outcome {A B : Type} (f : A -> outcome B) (l : list A)
  : outcome (list B) :=
  match l with
  | [] => Return []
  | x :: rest =>
      y <- f x ;;
      ys <- map_outcome f rest ;;
      Return (y :: ys)
  end.

Module Js.

(** ToBoolean. *)
Definition truthy (v : value) : bool :=
  match v with
  | VUndefined | VNull => false
  | VBool b => b
  | VNum n => negb (n =? 0)%Z
  | VStr s => negb (s =? "")
  | VArr _ | VObj _ => true
  end.

(** [a || b]. *)
Definition or (a b : value) : value := if truthy a then a else b.

Fixpoint assoc (key : string) (props : list (string * value)) : value :=
  match props with
  | [] => VUndefined
  | (k, v) :: rest => if k =? key then v else assoc key rest
  end.

(** [v.key] for the data fields the source reads.  None of those names
    is a property that strings, numbers, booleans or arrays have, so on
    them the read gives [undefined]; on [null] and [undefined] it raises. *)
Definition get (v : value) (key : string) : outcome value :=
  match v with
  | VUndefined | VNull => Throw TypeError
  | VObj props => Return (assoc key props)
  | VBool _ | VNum _ | VStr _ | VArr _ => Return VUndefined
  end.

(** [v.map(f)]: only an array has a callable [map]. *)
Definition map {B : Type} (v : value) (f : value -> outcome B)
  : outcome (list B) :=
  match v with
  | VArr elems => map_outcome f elems
  | _ => Throw TypeError
  end.

(** [v.toLowerCase()]: only a string has a callable [toLowerCase]. *)
Definition toLowerCase (v : value) : outcome string :=
  match v with
  | VStr s => Return (JsString.toLowerCase s)
  | _ => Throw TypeError
  end.

Definition is_array (v : value) : bool :=
  match v with VArr _ => true | _ => false end.

Definition is_string (v : value) : bool :=
  match v with VStr _ => true | _ => false end.

(** [v.length] where it is a number. *)
Definition length (v : value) : option nat :=
  match v with
  | VArr elems => Some (List.length elems)
  | VStr s => Some (String.length s)
  | _ => None
  end.

Definition strings (l : list string) : value := VArr (List.map VStr l).

End Js.

Notation "a '|||' b" := (Js.or a b) (at level 50, left associativity) : js_scope.

(* ================================================================== *)
(** ** types: the domain model *)

Module Sentiment.
Definition t := string.
Definition POSITIVE : t := "positive".
Definition NEUTRAL : t := "neutral".
Definition NEGATIVE : t := "negative".
Definition members : list t := [POSITIVE; NEUTRAL; NEGATIVE].
Definition member (s : string) : bool := existsb (String.eqb s) members.
End Sentiment.

Module Frequency.
Definition t := string.
Definition LOW : t := "low".
Definition MEDIUM : t := "medium".
Definition HIGH : t := "high".
Definition members : list t := [LOW; MEDIUM; HIGH].
Definition member (s : string) : bool := existsb (String.eqb s) members.
End Frequency.

(** The literal union ['low' | 'medium' | 'high'] of [PredictionFactor]. *)
Module ImpactLevel.
Definition t := string.
Definition members : list t := ["low"; "medium"; "high"].
Definition member (s : string) : bool := existsb (String.eqb s) members.
End ImpactLevel.

Record PainPoint : Type := {
  issue : value;
  pp_frequency_estimate : Frequency.t;
  pp_example_review_excerpt : value
}.

Record PositiveFeature : Type := {
  feature : value;
  pf_frequency_estimate : Frequency.t;
  pf_example_review_excerpt : value
}.

Record CompetitiveGap : Type := {
  gap : value;
  competitor_advantage : value
}.

Record ReviewAnalysisResponse : Type := {
  overall_sentiment : Sentiment.t;
  top_pain_points : list PainPoint;
  top_positive_features : list PositiveFeature;
  competitive_gaps : list CompetitiveGap;
  actionable_recommendations : value
}.

Record ListingGenerationResponse : Type := {
  product_title_variants : value;
  bullet_point_variants : value;
  full_description_variants : value;
  primary_keywords : value;
  secondary_keywords : value
}.

Record ListingInput : Type := {
  productName : string;
  category : string;
  features : string;
  targetAudience : string;
  brandTone : string
}.

Record PredictionFactor : Type := {
  factor : value;
  impact : ImpactLevel.t
}.

Record PredictionExplanationResponse : Type := {
  prediction_summary : value;
  key_factors : list PredictionFactor;
  recommended_actions : value;
  confidence_level : ImpactLevel.t
}.

Record PredictionInput : Type := {
  modelOutput : string;
  inputFeatures : string;
  historicalContext : string
}.

(* ================================================================== *)
(** ** geminiService: enum helpers *)

Definition toFrequency (freq : value) : outcome Frequency.t :=
  lowered <- Js.toLowerCase (freq ||| VStr "") ;;
  let normalized := JsString.trim lowered in
  if (normalized =? "low") || (normalized =? "medium") || (normalized =? "high")
  then Return normalized
  else Return Frequency.MEDIUM.

Definition toSentiment (sent : value) : outcome Sentiment.t :=
  lowered <- Js.toLowerCase (sent ||| VStr "") ;;
  let normalized := JsString.trim lowered in
  if (normalized =? "positive") || (normalized =? "neutral")
     || (normalized =? "negative")
  then Return normalized
  else Return Sentiment.NEUTRAL.

(** The helper local to [explainPrediction]. *)
Definition toImpact (impact : value) : outcome ImpactLevel.t :=
  lowered <- Js.toLowerCase (impact ||| VStr "") ;;
  let normalized := JsString.trim lowered in
  if (normalized =? "low") || (normalized =? "medium") || (normalized =? "high")
  then Return normalized
  else Return "medium".

(* ================================================================== *)
(** ** geminiService: the network as seen by one request *)

Record Response : Type := {
  status : Z;
  statusText : string;
  body_text : string;          (* what [response.text()] resolves to *)
  body_json : option value     (* what [response.json()] resolves to;
                                  [None] when the body does not parse *)
}.

(** [response.ok]: the status is in the range 200-299. *)
Definition ok (r : Response) : bool :=
  ((200 <=? status r) && (status r <=? 299))%Z.

Inductive FetchResult : Type :=
| Rejected (reason : string)     (* no response: [fetch] rejects *)
| Responded (r : Response).

Definition fetch (net : FetchResult) : outcome Response :=
  match net with
  | Rejected reason => Throw (FetchFailed reason)
  | Responded r => Return r
  end.

Definition json (r : Response) : outcome value :=
  match body_json r with
  | Some v => Return v
  | None => Throw BodyNotJSON
  end.

(** The three ways a request fails according to the interface
    description: no response, a status outside 2xx, a body that is not
    JSON. *)
Definition request_failed (net : FetchResult) : bool :=
  match net with
  | Rejected _ => true
  | Responded r =>
      negb (ok r) || match body_json r with None => true | Some _ => false end
  end.

(* ================================================================== *)
(** ** geminiService: analyzeReviews *)

Definition convert_pain_point (point : value) : outcome PainPoint :=
  issue_raw <- Js.get point "issue" ;;
  frequency_raw <- Js.get point "frequency_estimate" ;;
  frequency <- toFrequency frequency_raw ;;
  excerpt_raw <- Js.get point "example_review_excerpt" ;;
  Return {| issue := issue_raw ||| VStr "Unknown issue";
            pp_frequency_estimate := frequency;
            pp_example_review_excerpt := excerpt_raw ||| VStr "No example provided" |}.

Definition convert_positive_feature (feature : value) : outcome PositiveFeature :=
  feature_raw <- Js.get feature "feature" ;;
  frequency_raw <- Js.get feature "frequency_estimate" ;;
  frequency <- toFrequency frequency_raw ;;
  excerpt_raw <- Js.get feature "example_review_excerpt" ;;
  Return {| feature := feature_raw ||| VStr "Unknown feature";
            pf_frequency_estimate := frequency;
            pf_example_review_excerpt := excerpt_raw ||| VStr "No example provided" |}.

Definition convert_competitive_gap (gap : value) : outcome CompetitiveGap :=
  gap_raw <- Js.get gap "gap" ;;
  advantage_raw <- Js.get gap "competitor_advantage" ;;
  Return {| gap := gap_raw ||| VStr "Unknown gap";
            competitor_advantage := advantage_raw ||| VStr "Unknown advantage" |}.

(** The object literal that [analyzeReviews] returns on the success path
    ("Convert backend response to TypeScript types"); its fields are
    evaluated in the order written. *)
Definition normalizeReviewAnalysis (result : value)
  : outcome ReviewAnalysisResponse :=
  sentiment_raw <- Js.get result "overall_sentiment" ;;
  sentiment <- toSentiment sentiment_raw ;;
  pain_raw <- Js.get result "top_pain_points" ;;
  pain <- Js.map (pain_raw ||| VArr []) convert_pain_point ;;
  positive_raw <- Js.get result "top_positive_features" ;;
  positive <- Js.map (positive_raw ||| VArr []) convert_positive_feature ;;
  gaps_raw <- Js.get result "competitive_gaps" ;;
  gaps <- Js.map (gaps_raw ||| VArr []) convert_competitive_gap ;;
  recommendations_raw <- Js.get result "actionable_recommendations" ;;
  Return {| overall_sentiment := sentiment;
            top_pain_points := pain;
            top_positive_features := positive;
            competitive_gaps := gaps;
            actionable_recommendations :=
              recommendations_raw
              ||| Js.strings ["No specific recommendations available"] |}.

(** "Fallback mock data with proper enums". *)
Definition analyzeReviews_fallback : ReviewAnalysisResponse :=
  {| overall_sentiment := Sentiment.POSITIVE;
     top_pain_points :=
       [ {| issue := VStr "Shipping time could be faster";
            pp_frequency_estimate := Frequency.MEDIUM;
            pp_example_review_excerpt :=
              VStr "Great product but delivery took longer than expected" |};
         {| issue := VStr "Packaging could be improved";
            pp_frequency_estimate := Frequency.LOW;
            pp_example_review_excerpt :=
              VStr "Item arrived with slightly damaged packaging" |} ];
     top_positive_features :=
       [ {| feature := VStr "Build quality";
            pf_frequency_estimate := Frequency.HIGH;
            pf_example_review_excerpt :=
              VStr "Very sturdy and well-made, feels premium" |};
         {| feature := VStr "Easy to use";
            pf_frequency_estimate := Frequency.MEDIUM;
            pf_example_review_excerpt :=
              VStr "Simple setup and intuitive controls" |} ];
     competitive_gaps :=
       [ {| gap := VStr "Faster shipping options";
            competitor_advantage := VStr "Competitors offer 2-day delivery" |} ];
     actionable_recommendations :=
       Js.strings [ "Improve logistics to reduce delivery times";
                    "Highlight build quality in marketing materials";
                    "Offer optional expedited shipping" ] |}.

Definition analyzeReviews (productReviews competitorReviews : string)
    (net : FetchResult) : outcome ReviewAnalysisResponse :=
  try_catch
    (response <- fetch net ;;
     if negb (ok response) then
       let errorText := body_text response in
       Throw (Error ("Analysis failed: " ++ JsString.of_Z (status response)
                     ++ " - " ++ errorText))
     else
       result <- json response ;;
       normalizeReviewAnalysis result)
    (fun _ => Return analyzeReviews_fallback).

(* ================================================================== *)
(** ** geminiService: generateListing *)

Definition default_product_title_variants (input : ListingInput) : value :=
  Js.strings [ productName input ++ " - Premium Quality";
               "Professional " ++ productName input;
               productName input ++ " | Best in Class" ].

Definition default_bullet_point_variants : value :=
  VArr [ Js.strings [ "High-quality materials and construction";
                      "Easy to use and maintain";
                      "Durable and long-lasting" ];
         Js.strings [ "Professional-grade performance";
                      "Versatile for multiple applications";
                      "Excellent value for money" ] ].

Definition default_full_description_variants (input : ListingInput) : value :=
  Js.strings
    [ "Introducing our premium " ++ productName input
      ++ ", designed for excellence in the " ++ category input
      ++ " category. Perfect for " ++ targetAudience input
      ++ ", this product combines breakthrough technology with elegant "
      ++ JsString.toLowerCase (brandTone input)
      ++ " design. Features include: " ++ features input ++ ".";
      "Experience superior performance with the " ++ productName input
      ++ ". Engineered for " ++ targetAudience input
      ++ ", every detail has been optimized for your success. This "
      ++ category input ++ " solution offers " ++ features input
      ++ " in a package designed to exceed expectations." ].

Definition default_primary_keywords (input : ListingInput) : value :=
  Js.strings [ JsString.trim (JsString.toLowerCase (productName input));
               JsString.trim (JsString.toLowerCase (category input));
               "premium"; "professional"; "quality" ].

Definition default_secondary_keywords : value :=
  Js.strings [ "buy"; "best"; "review"; "sale"; "discount"; "2024" ].

(** The object literal that [generateListing] returns on the success path. *)
Definition normalizeListing (input : ListingInput) (result : value)
  : outcome ListingGenerationResponse :=
  titles_raw <- Js.get result "product_title_variants" ;;
  bullets_raw <- Js.get result "bullet_point_variants" ;;
  descriptions_raw <- Js.get result "full_description_variants" ;;
  primary_raw <- Js.get result "primary_keywords" ;;
  secondary_raw <- Js.get result "secondary_keywords" ;;
  Return {| product_title_variants :=
              titles_raw ||| default_product_title_variants input;
            bullet_point_variants :=
              bullets_raw ||| default_bullet_point_variants;
            full_description_variants :=
              descriptions_raw ||| default_full_description_variants input;
            primary_keywords :=
              primary_raw ||| default_primary_keywords input;
            secondary_keywords :=
              secondary_raw ||| default_secondary_keywords |}.

(** "Fallback mock data". *)
Definition generateListing_fallback (input : ListingInput)
  : ListingGenerationResponse :=
  {| product_title_variants :=
       Js.strings [ productName input ++ " - Professional Edition";
                    "Premium " ++ productName input ++ " | High Performance";
                    productName input ++ " Pro - Advanced Technology" ];
     bullet_point_variants :=
       VArr [ Js.strings [ "Advanced " ++ category input ++ " technology";
                           "Durable materials built to last";
                           "Easy to use with intuitive controls";
                           "Backed by 2-year manufacturer warranty";
                           "Trusted by professionals worldwide" ];
              Js.strings [ "Cutting-edge innovation at an affordable price";
                           "Ergonomic design for comfortable extended use";
                           "Low maintenance requirements";
                           "Compatible with industry-standard accessories";
                           "Fast shipping and reliable delivery" ] ];
     full_description_variants :=
       Js.strings
         [ "This " ++ productName input
           ++ " represents the pinnacle of innovation in the "
           ++ category input ++ " industry. Designed specifically for "
           ++ targetAudience input
           ++ ", it combines breakthrough technology with robust construction to deliver unmatched performance. With features like "
           ++ features input
           ++ ", it's the perfect solution for demanding professionals.";
           "Elevate your experience with our " ++ productName input
           ++ ", engineered to exceed expectations. This exceptional "
           ++ category input ++ " product offers " ++ features input
           ++ " in a package designed for " ++ targetAudience input
           ++ ". Built with precision and tested for reliability, it represents the smart choice for those who value quality and results." ];
     primary_keywords :=
       Js.strings [ JsString.trim (JsString.toLowerCase (productName input));
                    JsString.trim (JsString.toLowerCase (category input));
                    "premium"; "professional"; "advanced"; "quality" ];
     secondary_keywords :=
       Js.strings [ "buy"; "best"; "review"; "sale"; "discount"; "price";
                    "deal"; "2024" ] |}.

Definition generateListing (input : ListingInput) (net : FetchResult)
  : outcome ListingGenerationResponse :=
  try_catch
    (response <- fetch net ;;
     if negb (ok response) then
       let errorText := body_text response in
       Throw (Error ("Listing generation failed: "
                     ++ JsString.of_Z (status response) ++ " - " ++ errorText))
     else
       result <- json response ;;
       normalizeListing input result)
    (fun _ => Return (generateListing_fallback input)).

(* ================================================================== *)
(** ** geminiService: explainPrediction *)

Definition convert_factor (factor : value) : outcome PredictionFactor :=
  factor_raw <- Js.get factor "factor" ;;
  impact_raw <- Js.get factor "impact" ;;
  impact <- toImpact impact_raw ;;
  Return {| factor := factor_raw ||| VStr "Unknown factor";
            impact := impact |}.

Definition default_recommended_actions : value :=
  Js.strings [ "Monitor market trends closely";
               "Collect additional performance data";
               "Consider A/B testing different strategies" ].

(** The object literal that [explainPrediction] returns on the success
    path. *)
Definition normalizePrediction (result : value)
  : outcome PredictionExplanationResponse :=
  summary_raw <- Js.get result "prediction_summary" ;;
  factors_raw <- Js.get result "key_factors" ;;
  factors <- Js.map (factors_raw ||| VArr []) convert_factor ;;
  actions_raw <- Js.get result "recommended_actions" ;;
  confidence_raw <- Js.get result "confidence_level" ;;
  confidence <- toImpact confidence_raw ;;
  Return {| prediction_summary :=
              summary_raw
              ||| VStr "Model analysis suggests favorable market conditions.";
            key_factors := factors;
            recommended_actions := actions_raw ||| default_recommended_actions;
            confidence_level := confidence |}.

(** "Fallback mock data". *)
Definition explainPrediction_fallback : PredictionExplanationResponse :=
  {| prediction_summary :=
       VStr "The model predicts positive outcomes with moderate confidence based on available data patterns.";
     key_factors :=
       [ {| factor := VStr "Customer sentiment analysis"; impact := "high" |};
         {| factor := VStr "Market trend alignment"; impact := "medium" |};
         {| factor := VStr "Competitive landscape"; impact := "low" |};
         {| factor := VStr "Historical performance data"; impact := "medium" |} ];
     recommended_actions :=
       Js.strings
         [ "Increase marketing spend by 10-15% in the next quarter";
           "Expand product variations to capture additional market segments";
           "Enhance customer support channels to improve satisfaction";
           "Conduct A/B testing on pricing strategies" ];
     confidence_level := "medium" |}.

Definition explainPrediction (input : PredictionInput) (net : FetchResult)
  : outcome PredictionExplanationResponse :=
  try_catch
    (response <- fetch net ;;
     if negb (ok response) then
       let errorText := body_text response in
       Throw (Error ("Prediction explanation failed: "
                     ++ JsString.of_Z (status response) ++ " - " ++ errorText))
     else
       result <- json response ;;
       normalizePrediction result)
    (fun _ => Return explainPrediction_fallback).

(* ================================================================== *)
(** ** geminiService: health check *)

Definition testBackendConnection (net : FetchResult) : outcome value :=
  try_catch
    (response <- fetch net ;;
     if negb (ok response) then
       Throw (Error ("Backend error: " ++ JsString.of_Z (status response)
                     ++ " " ++ statusText response))
     else
       data <- json response ;;
       Return data)
    (fun error => Throw error).

(** The [message] of a health record is a template literal around
    [health.port] or [error.message]; the model keeps the template and
    what is spliced into it apart. *)
Inductive HealthMessage : Type :=
| CheckingMessage                    (* 'Checking backend connection...' *)
| ConnectedMessage (port : value)    (* `Backend connected on port ${health.port}` *)
| NotConnectedMessage (e : exn).   (* `Backend not connected: ${error.message}` *)

Record BackendHealth : Type := {
  connected : bool;
  message : HealthMessage;
  details : option (value + exn)
}.

Definition checkBackendHealth (net : FetchResult) : BackendHealth :=
  match (health <- testBackendConnection net ;;
         port <- Js.get health "port" ;;
         Return {| connected := true;
                   message := ConnectedMessage port;
                   details := Some (inl health) |}) with
  | Return health => health
  | Throw error => {| connected := false;
                      message := NotConnectedMessage error;
                      details := Some (inr error) |}
  end.

(* ================================================================== *)
(** ** App: component state *)

Inductive Tab : Type := analysis | listing | prediction.

Record State : Type := {
  activeTab : Tab;
  productAReviews : string;
  competitorReviews : string;
  analysisResult : option ReviewAnalysisResponse;
  listingInput : ListingInput;
  listingResult : option ListingGenerationResponse;
  predInput : PredictionInput;
  predictionResult : option PredictionExplanationResponse;
  isLoading : bool;
  error : option string;
  backendHealth : BackendHealth;
  connectionRetries : nat
}.

(** The arguments of the [useState] calls. *)
Definition initial_state : State :=
  {| activeTab := analysis;
     productAReviews := "";
     competitorReviews := "";
     analysisResult := None;
     listingInput := {| productName := ""; category := ""; features := "";
                        targetAudience := ""; brandTone := "Professional" |};
     listingResult := None;
     predInput := {| modelOutput := ""; inputFeatures := "";
                     historicalContext := "" |};
     predictionResult := None;
     isLoading := false;
     error := None;
     backendHealth := {| connected := false; message := CheckingMessage;
                         details := None |};
     connectionRetries := 0 |}.

Definition setActiveTab (x : Tab) (s : State) : State :=
  {| activeTab := x; productAReviews := productAReviews s;
     competitorReviews := competitorReviews s;
     analysisResult := analysisResult s; listingInput := listingInput s;
     listingResult := listingResult s; predInput := predInput s;
     predictionResult := predictionResult s; isLoading := isLoading s;
     error := error s; backendHealth := backendHealth s;
     connectionRetries := connectionRetries s |}.

Definition setProductAReviews (x : string) (s : State) : State :=
  {| activeTab := activeTab s; productAReviews := x;
     competitorReviews := competitorReviews s;
     analysisResult := analysisResult s; listingInput := listingInput s;
     listingResult := listingResult s; predInput := predInput s;
     predictionResult := predictionResult s; isLoading := isLoading s;
     error := error s; backendHealth := backendHealth s;
     connectionRetries := connectionRetries s |}.

Definition setCompetitorReviews (x : string) (s : State) : State :=
  {| activeTab := activeTab s; productAReviews := productAReviews s;
     competitorReviews := x;
     analysisResult := analysisResult s; listingInput := listingInput s;
     listingResult := listingResult s; predInput := predInput s;
     predictionResult := predictionResult s; isLoading := isLoading s;
     error := error s; backendHealth := backendHealth s;
     connectionRetries := connectionRetries s |}.

Definition setAnalysisResult (x : option ReviewAnalysisResponse) (s : State)
  : State :=
  {| activeTab := activeTab s; productAReviews := productAReviews s;
     competitorReviews := competitorReviews s;
     analysisResult := x; listingInput := listingInput s;
     listingResult := listingResult s; predInput := predInput s;
     predictionResult := predictionResult s; isLoading := isLoading s;
     error := error s; backendHealth := backendHealth s;
     connectionRetries := connectionRetries s |}.

Definition setListingInput (x : ListingInput) (s : State) : State :=
  {| activeTab := activeTab s; productAReviews := productAReviews s;
     competitorReviews := competitorReviews s;
     analysisResult := analysisResult s; listingInput := x;
     listingResult := listingResult s; predInput := predInput s;
     predictionResult := predictionResult s; isLoading := isLoading s;
     error := error s; backendHealth := backendHealth s;
     connectionRetries := connectionRetries s |}.

Definition setListingResult (x : option ListingGenerationResponse) (s : State)
  : State :=
  {| activeTab := activeTab s; productAReviews := productAReviews s;
     competitorReviews := competitorReviews s;
     analysisResult := analysisResult s; listingInput := listingInput s;
     listingResult := x; predInput := predInput s;
     predictionResult := predictionResult s; isLoading := isLoading s;
     error := error s; backendHealth := backendHealth s;
     connectionRetries := connectionRetries s |}.

Definition setPredInput (x : PredictionInput) (s : State) : State :=
  {| activeTab := activeTab s; productAReviews := productAReviews s;
     competitorReviews := competitorReviews s;
     analysisResult := analysisResult s; listingInput := listingInput s;
     listingResult := listingResult s; predInput := x;
     predictionResult := predictionResult s; isLoading := isLoading s;
     error := error s; backendHealth := backendHealth s;
     connectionRetries := connectionRetries s |}.

Definition setPredictionResult (x : option PredictionExplanationResponse)
    (s : State) : State :=
  {| activeTab := activeTab s; productAReviews := productAReviews s;
     competitorReviews := competitorReviews s;
     analysisResult := analysisResult s; listingInput := listingInput s;
     listingResult := listingResult s; predInput := predInput s;
     predictionResult := x; isLoading := isLoading s;
     error := error s; backendHealth := backendHealth s;
     connectionRetries := connectionRetries s |}.

Definition setIsLoading (x : bool) (s : State) : State :=
  {| activeTab := activeTab s; productAReviews := productAReviews s;
     competitorReviews := competitorReviews s;
     analysisResult := analysisResult s; listingInput := listingInput s;
     listingResult := listingResult s; predInput := predInput s;
     predictionResult := predictionResult s; isLoading := x;
     error := error s; backendHealth := backendHealth s;
     connectionRetries := connectionRetries s |}.

Definition setError (x : option string) (s : State) : State :=
  {| activeTab := activeTab s; productAReviews := productAReviews s;
     competitorReviews := competitorReviews s;
     analysisResult := analysisResult s; listingInput := listingInput s;
     listingResult := listingResult s; predInput := predInput s;
     predictionResult := predictionResult s; isLoading := isLoading s;
     error := x; backendHealth := backendHealth s;
     connectionRetries := connectionRetries s |}.

Definition setBackendHealth (x : BackendHealth) (s : State) : State :=
  {| activeTab := activeTab s; productAReviews := productAReviews s;
     competitorReviews := competitorReviews s;
     analysisResult := analysisResult s; listingInput := listingInput s;
     listingResult := listingResult s; predInput := predInput s;
     predictionResult := predictionResult s; isLoading := isLoading s;
     error := error s; backendHealth := x;
     connectionRetries := connectionRetries s |}.

Definition setConnectionRetries (x : nat) (s : State) : State :=
  {| activeTab := activeTab s; productAReviews := productAReviews s;
     competitorReviews := competitorReviews s;
     analysisResult := analysisResult s; listingInput := listingInput s;
     listingResult := listingResult s; predInput := predInput s;
     predictionResult := predictionResult s; isLoading := isLoading s;
     error := error s; backendHealth := backendHealth s;
     connectionRetries := x |}.

(** What the component shows for a mode: the spinner while [isLoading],
    else the result view when that mode has a result, else its form. *)
Inductive Phase : Type := InputPhase | LoadingPhase | ResultPhase.

Definition has_result (mode : Tab) (s : State) : bool :=
  match mode with
  | analysis => match analysisResult s with Some _ => true | None => false end
  | listing => match listingResult s with Some _ => true | None => false end
  | prediction => match predictionResult s with Some _ => true | None => false end
  end.

Definition phase (mode : Tab) (s : State) : Phase :=
  if isLoading s then LoadingPhase
  else if has_result mode s then ResultPhase
  else InputPhase.

(** The connection monitor's state, read off the health record. *)
Inductive MonitorState : Type := Checking | Connected | Disconnected.

Definition monitor_state (h : BackendHealth) : MonitorState :=
  if connected h then Connected
  else match message h with
       | CheckingMessage => Checking
       | _ => Disconnected
       end.

(* ================================================================== *)
(** ** App: the component in its environment *)

(** A [fetch] call that has left the browser. *)
Inductive Request : Type :=
| GetHealth                                              (* GET /health *)
| PostAnalyze (productReviews competitorReviews : string) (* POST /api/analyze *)
| PostGenerateListing (input : ListingInput)             (* POST /api/generate-listing *)
| PostExplainPrediction (input : PredictionInput).       (* POST /api/explain-prediction *)

Definition API_BASE : string := "http://localhost:5000/api".

Definition url (r : Request) : string :=
  match r with
  | GetHealth => "http://localhost:5000/health"
  | PostAnalyze _ _ => API_BASE ++ "/analyze"
  | PostGenerateListing _ => API_BASE ++ "/generate-listing"
  | PostExplainPrediction _ => API_BASE ++ "/explain-prediction"
  end.

(** Who is waiting for a health probe: the mount effect, which closed
    over the [connectionRetries] of its render, or the Retry button. *)
Inductive Prober : Type :=
| ByEffect (connectionRetries : nat)
| ByRefresh.

(** [requests]: every [fetch] issued so far, oldest first.
    [probes]: health probes not yet answered.
    [timers]: delays, in milliseconds, of the [setTimeout] callbacks not
    yet run. *)
Record World : Type := {
  state : State;
  requests : list Request;
  probes : list Prober;
  timers : list Z
}.

Definition initial_world : World :=
  {| state := initial_state; requests := []; probes := []; timers := [] |}.

Definition with_state (f : State -> State) (w : World) : World :=
  {| state := f (state w); requests := requests w; probes := probes w;
     timers := timers w |}.

Definition send (r : Request) (w : World) : World :=
  {| state := state w; requests := requests w ++ [r]; probes := probes w;
     timers := timers w |}.

Definition setTimeout (delay : Z) (w : World) : World :=
  {| state := state w; requests := requests w; probes := probes w;
     timers := timers w ++ [delay] |}.

Definition await_probe (p : Prober) (w : World) : World :=
  {| state := state w; requests := requests w; probes := probes w ++ [p];
     timers := timers w |}.

Fixpoint remove_nth {A : Type} (i : nat) (l : list A) : list A :=
  match l, i with
  | [], _ => []
  | _ :: rest, O => rest
  | x :: rest, S j => x :: remove_nth j rest
  end.

Definition drop_probe (i : nat) (w : World) : World :=
  {| state := state w; requests := requests w;
     probes := remove_nth i (probes w); timers := timers w |}.

(* ================================================================== *)
(** ** App: effect, handlers, events *)

(** [initializeBackend], up to its [await]: the probe leaves, and the
    closure that will take the answer remembers the [connectionRetries]
    of the render it was created in. *)
Definition initializeBackend (w : World) : World :=
  await_probe (ByEffect (connectionRetries (state w))) (send GetHealth w).

(** [useEffect(..., [connectionRetries])] after a render: the effect runs
    again only when the dependency differs from the previous render. *)
Definition rerender (previous : nat) (w : World) : World :=
  if (previous =? connectionRetries (state w))%nat then w
  else initializeBackend w.

(** The rest of [initializeBackend] or of [refreshBackendConnection],
    once [checkBackendHealth] has resolved. *)
Definition probe_answered (p : Prober) (net : FetchResult) (w : World) : World :=
  let health := checkBackendHealth net in
  let w := with_state (setBackendHealth health) w in
  match p with
  | ByEffect connectionRetries =>
      if negb (connected health) && (connectionRetries <? 3)%nat
      then setTimeout 3000 w
      else w
  | ByRefresh =>
      if connected health then with_state (setError None) w else w
  end.

(** The callback given to [setTimeout]:
    [setConnectionRetries(prev => prev + 1)], and the render it causes. *)
Definition timer_fired (w : World) : World :=
  let previous := connectionRetries (state w) in
  rerender previous (with_state (setConnectionRetries (previous + 1)) w).

(** [refreshBackendConnection], up to its [await], and the render caused
    by [setConnectionRetries(0)]. *)
Definition refreshBackendConnection (w : World) : World :=
  let previous := connectionRetries (state w) in
  let w := with_state (setConnectionRetries 0) w in
  let w := await_probe ByRefresh (send GetHealth w) in
  rerender previous w.

(** The submit handlers, up to the [await] of the service call.  Each
    service function issues its single [fetch] as soon as it is called. *)
Definition handleAnalyzeReviews (w : World) : World :=
  let s := state w in
  if JsString.trim (productAReviews s) =? "" then
    with_state (setError (Some "Provide product reviews to begin analysis.")) w
  else if negb (connected (backendHealth s)) then
    with_state
      (setError
         (Some "Backend not connected. Please check if Python server is running."))
      w
  else
    let w := with_state (setIsLoading true) w in
    let w := with_state (setError None) w in
    let w := with_state (setAnalysisResult None) w in
    send (PostAnalyze (productAReviews s) (competitorReviews s)) w.

Definition handleGenerateListing (w : World) : World :=
  let s := state w in
  if (productName (listingInput s) =? "") || (features (listingInput s) =? "")
  then
    with_state
      (setError (Some "Product Name and Features are required for copywriting."))
      w
  else if negb (connected (backendHealth s)) then
    with_state
      (setError
         (Some "Backend not connected. Please check if Python server is running."))
      w
  else
    let w := with_state (setIsLoading true) w in
    let w := with_state (setError None) w in
    let w := with_state (setListingResult None) w in
    send (PostGenerateListing (listingInput s)) w.

Definition handleExplainPrediction (w : World) : World :=
  let s := state w in
  if (modelOutput (predInput s) =? "") || (inputFeatures (predInput s) =? "")
  then
    with_state (setError (Some "Prediction data and features are required.")) w
  else if negb (connected (backendHealth s)) then
    with_state
      (setError
         (Some "Backend not connected. Please check if Python server is running."))
      w
  else
    let w := with_state (setIsLoading true) w in
    let w := with_state (setError None) w in
    let w := with_state (setPredictionResult None) w in
    send (PostExplainPrediction (predInput s)) w.

Definition handleReset (w : World) : World :=
  let w := with_state (setAnalysisResult None) w in
  let w := with_state (setListingResult None) w in
  let w := with_state (setPredictionResult None) w in
  with_state (setError None) w.

(** The submit handler of a mode. *)
Definition submit (mode : Tab) : World -> World :=
  match mode with
  | analysis => handleAnalyzeReviews
  | listing => handleGenerateListing
  | prediction => handleExplainPrediction
  end.

Inductive Event : Type :=
| Mount                                         (* first render: the effect runs *)
| TimerFires                                    (* the oldest pending timer *)
| ProbeAnswered (i : nat) (net : FetchResult)   (* the i-th open probe resolves *)
| ClickRetry
| ClickSubmit (mode : Tab)
| ClickTab (tab : Tab)
| ClickReset
| TypeProductReviews (text : string)            (* onChange of a form field *)
| TypeCompetitorReviews (text : string)
| EditListing (input : ListingInput)
| EditPrediction (input : PredictionInput).

Definition step (w : World) (e : Event) : World :=
  match e with
  | Mount => initializeBackend w
  | TimerFires =>
      match timers w with
      | [] => w
      | _ :: rest =>
          timer_fired {| state := state w; requests := requests w;
                         probes := probes w; timers := rest |}
      end
  | ProbeAnswered i net =>
      match nth_error (probes w) i with
      | None => w
      | Some p => probe_answered p net (drop_probe i w)
      end
  | ClickRetry => refreshBackendConnection w
  | ClickSubmit mode => submit mode w
  | ClickTab tab => handleReset (with_state (setActiveTab tab) w)
  | ClickReset => handleReset w
  | TypeProductReviews text => with_state (setProductAReviews text) w
  | TypeCompetitorReviews text => with_state (setCompetitorReviews text) w
  | EditListing input => with_state (setListingInput input) w
  | EditPrediction input => with_state (setPredInput input) w
  end.

Definition run (w : World) (events : list Event) : World :=
  fold_left step events w.

(* ================================================================== *)
(** ** Vocabulary of the properties *)

(** Whether a computation returns rather than throws. *)
Definition returns {A : Type} (o : outcome A) : bool :=
  match o with Return _ => true | Throw _ => false end.

(** The raw value of a field of a response body; [undefined] when the body
    has no such field. *)
Definition field (raw : value) (key : string) : value :=
  match Js.get raw key with
  | Return v => v
  | Throw _ => VUndefined
  end.

(** A raw field that is missing, [null] or otherwise falsy, or else
    passes [expected]. *)
Definition falsy_or (expected : value -> bool) (v : value) : bool :=
  negb (Js.truthy v) || expected v.

Definition array_of (entry : value -> bool) (v : value) : bool :=
  match v with
  | VArr elems => forallb entry elems
  | _ => false
  end.

(** An entry of a sequence field: anything but [null], ... *)
Definition entry_present (v : value) : bool :=
  match v with
  | VUndefined | VNull => false
  | _ => true
  end.

(** ... and, where it has a [frequency_estimate], that one missing, falsy
    or a string. *)
Definition entry_with_frequency (v : value) : bool :=
  entry_present v && falsy_or Js.is_string (field v "frequency_estimate").

(** A review-analysis body in which every field is missing (or falsy) or
    of the type the domain model gives it. *)
Definition expected_review_shape (raw : value) : bool :=
  match raw with
  | VObj _ =>
      falsy_or Js.is_string (field raw "overall_sentiment")
      && falsy_or (array_of entry_with_frequency) (field raw "top_pain_points")
      && falsy_or (array_of entry_with_frequency) (field raw "top_positive_features")
      && falsy_or (array_of entry_present) (field raw "competitive_gaps")
      && falsy_or Js.is_array (field raw "actionable_recommendations")
  | _ => false
  end.

(** A non-empty string that [trim] empties. *)
Definition whitespace_only (s : string) : bool :=
  negb (s =? "") && (JsString.trim s =? "").

(** The required fields of a mode, as the data model names them: the
    product reviews; product name and features; model output and input
    features. *)
Definition required_fields (mode : Tab) (s : State) : list string :=
  match mode with
  | analysis => [productAReviews s]
  | listing => [productName (listingInput s); features (listingInput s)]
  | prediction => [modelOutput (predInput s); inputFeatures (predInput s)]
  end.

Definition required_field_empty (mode : Tab) (s : State) : bool :=
  existsb (fun f => f =? "") (required_fields mode s).

(** Every required field holds something, and at least one of them holds
    nothing but white space. *)
Definition filled_with_whitespace (mode : Tab) (s : State) : bool :=
  forallb (fun f => negb (f =? "")) (required_fields mode s)
  && existsb whitespace_only (required_fields mode s).

(** The check a submit handler makes before anything else. *)
Definition passes_validation (mode : Tab) (s : State) : bool :=
  match mode with
  | analysis => negb (JsString.trim (productAReviews s) =? "")
  | listing =>
      negb ((productName (listingInput s) =? "")
            || (features (listingInput s) =? ""))
  | prediction =>
      negb ((modelOutput (predInput s) =? "")
            || (inputFeatures (predInput s) =? ""))
  end.

Definition validation_message (mode : Tab) : string :=
  match mode with
  | analysis => "Provide product reviews to begin analysis."
  | listing => "Product Name and Features are required for copywriting."
  | prediction => "Prediction data and features are required."
  end.

Definition connectivity_message : string :=
  "Backend not connected. Please check if Python server is running.".

(** The request a submit sends once it is let through. *)
Definition request_of (mode : Tab) (s : State) : Request :=
  match mode with
  | analysis => PostAnalyze (productAReviews s) (competitorReviews s)
  | listing => PostGenerateListing (listingInput s)
  | prediction => PostExplainPrediction (predInput s)
  end.

(** A health probe that leaves the monitor not connected. *)
Definition probe_fails (net : FetchResult) : bool :=
  negb (connected (checkBackendHealth net)).

(** The automatic events of the connection monitor: a probe is answered
    with a failure, a retry timer runs. *)
Definition automatic_failure (e : Event) : bool :=
  match e with
  | TimerFires => true
  | ProbeAnswered _ net => probe_fails net
  | _ => false
  end.

(** Nothing is left that could issue a probe by itself. *)
Definition quiescent (w : World) : bool :=
  match probes w, timers w with
  | [], [] => true
  | _, _ => false
  end.

(** The worlds the monitor goes through while nobody touches the page:
    the component state is the initial one but for the health record [h]
    and the retry counter [r], and [r + 1] probes have been issued.
    [probing]: the last probe is open.  [waiting]: it has failed and the
    retry timer runs.  [gave_up]: it has failed and nothing is pending. *)
Definition monitoring (r : nat) (h : BackendHealth) : State :=
  setConnectionRetries r (setBackendHealth h initial_state).

Definition probing (r : nat) (h : BackendHealth) : World :=
  {| state := monitoring r h; requests := repeat GetHealth (S r);
     probes := [ByEffect r]; timers := [] |}.

Definition waiting (r : nat) (h : BackendHealth) : World :=
  {| state := monitoring r h; requests := repeat GetHealth (S r);
     probes := []; timers := [3000%Z] |}.

Definition gave_up (h : BackendHealth) : World :=
  {| state := monitoring 3 h; requests := repeat GetHealth 4;
     probes := []; timers := [] |}.

(** The monitor is in one of these worlds, within the bound of three
    retries, and disconnected once a probe has failed. *)
Inductive Watching : World -> Prop :=
| Watching_first_probe :
    Watching (probing 0 (backendHealth initial_state))
| Watching_probe r h :
    r <= 3 -> monitor_state h = Disconnected -> Watching (probing r h)
| Watching_timer r h :
    r < 3 -> monitor_state h = Disconnected -> Watching (waiting r h)
| Watching_over h :
    monitor_state h = Disconnected -> Watching (gave_up h).

(** The first [n] automatic probes all fail, each answered before its
    retry timer runs: the answers are [nets], oldest first. *)
Fixpoint failed_probes (nets : list FetchResult) : list Event :=
  match nets with
  | [] => []
  | [net] => [ProbeAnswered 0 net]
  | net :: rest => ProbeAnswered 0 net :: TimerFires :: failed_probes rest
  end.

(* ================================================================== *)
(** ** App: the submit handlers after the await *)

(** [haystack.includes(needle)] on strings. *)
Fixpoint string_includes (needle haystack : string) : bool :=
  String.prefix needle haystack
  || match haystack with
     | EmptyString => false
     | String _ rest => string_includes needle rest
     end.

(** [v.includes(needle)] for a string [needle]: a string looks for a
    substring, an array for an element equal to [needle]; nothing else
    has a callable [includes]. *)
Definition value_includes (v : value) (needle : string) : outcome bool :=
  match v with
  | VStr s => Return (string_includes needle s)
  | VArr elems =>
      Return (existsb (fun x => match x with
                                | VStr t => t =? needle
                                | _ => false
                                end) elems)
  | _ => Throw TypeError
  end.

(** Left-to-right [Array.prototype.some] with a callback that may throw:
    it stops at the first [true] and at the first exception. *)
Fixpoint some_outcome {A : Type} (pred : A -> outcome bool) (l : list A)
  : outcome bool :=
  match l with
  | [] => Return false
  | x :: rest =>
      found <- pred x ;;
      if found then Return true else some_outcome pred rest
  end.

(** [text || fallback] on strings. *)
Definition or_text (text fallback : string) : string :=
  if text =? "" then fallback else text.

Section AfterAwait.

(** The [message] an engine gives to an exception it raises itself; the
    source does not fix it. *)
Variable engine_message : exn -> string.

(** [err.message]. *)
Definition message_of (err : exn) : string :=
  match err with
  | Error message => message
  | raised => engine_message raised
  end.

(** The warning of [handleAnalyzeReviews]; its leading sign lies outside
    the alphabet of the string model and is kept as written. *)
Definition fallback_warning : string :=
  "⚠️ Using fallback data. Backend may not be fully connected.".

(** [handleAnalyzeReviews] from the point where [analyzeReviews] has
    resolved, for the arguments it was called with. *)
Definition handleAnalyzeReviews_resumed (productReviews competitorReviews : string)
    (net : FetchResult) (w : World) : World :=
  let failed err :=
    with_state
      (setError (Some ("Intelligence extraction failed: "
                       ++ or_text (message_of err) "Unknown error"))) in
  let w :=
    match analyzeReviews productReviews competitorReviews net with
    | Throw err => failed err w
    | Return result =>
        let w := with_state (setAnalysisResult (Some result)) w in
        match some_outcome
                (fun p => value_includes (issue p) "Backend connection")
                (top_pain_points result) with
        | Return true => with_state (setError (Some fallback_warning)) w
        | Return false => w
        | Throw err => failed err w
        end
    end in
  with_state (setIsLoading false) w.

Definition handleGenerateListing_resumed (input : ListingInput)
    (net : FetchResult) (w : World) : World :=
  let w :=
    match generateListing input net with
    | Return result => with_state (setListingResult (Some result)) w
    | Throw err =>
        with_state
          (setError (Some ("Copy generation failed: "
                           ++ or_text (message_of err) "Please try again."))) w
    end in
  with_state (setIsLoading false) w.

Definition handleExplainPrediction_resumed (input : PredictionInput)
    (net : FetchResult) (w : World) : World :=
  let w :=
    match explainPrediction input net with
    | Return result => with_state (setPredictionResult (Some result)) w
    | Throw err =>
        with_state
          (setError (Some ("Strategy bridge failed: "
                           ++ or_text (message_of err) "Unknown error"))) w
    end in
  with_state (setIsLoading false) w.



End AfterAwait.

(* ================================================================== *)
(** ** components: the helpers of the result views *)

Module FrequencyBadge.

Definition getColors (frequency : Frequency.t) : string :=
  let lowered := JsString.toLowerCase frequency in
  if lowered =? "high" then "bg-red-100 text-red-700 border-red-200"
  else if lowered =? "medium" then "bg-amber-100 text-amber-700 border-amber-200"
  else if lowered =? "low" then "bg-blue-100 text-blue-700 border-blue-200"
  else "bg-gray-100 text-gray-700 border-gray-200".

End FrequencyBadge.

Module PredictionResult.

Definition getImpactColor (impact : string) : string :=
  let lowered := JsString.toLowerCase impact in
  if lowered =? "high" then "bg-red-500"
  else if lowered =? "medium" then "bg-amber-500"
  else if lowered =? "low" then "bg-blue-500"
  else "bg-gray-500".

Record ConfidenceStyle : Type := { color : string; bg : string; icon : string }.

Definition getConfidenceLevel (level : string) : ConfidenceStyle :=
  let lowered := JsString.toLowerCase level in
  if lowered =? "high" then
    {| color := "text-green-600"; bg := "bg-green-100"; icon := "fa-circle-check" |}
  else if lowered =? "medium" then
    {| color := "text-amber-600"; bg := "bg-amber-100"; icon := "fa-circle-dot" |}
  else
    {| color := "text-red-600"; bg := "bg-red-100"; icon := "fa-circle-xmark" |}.

(** The [width] of a factor's bar. *)
Definition bar_width (impact : string) : string :=
  if impact =? "high" then "100%"
  else if impact =? "medium" then "60%"
  else "30%".

End PredictionResult.

Module AnalysisResult.

Record SentimentStyle : Type := {
  icon : string; color : string; bg : string; label : string
}.

Definition getSentimentStyling (sentiment : Sentiment.t) : SentimentStyle :=
  if sentiment =? Sentiment.POSITIVE then
    {| icon := "fa-face-smile"; color := "text-emerald-500";
       bg := "bg-emerald-50"; label := "Positive Pulse" |}
  else if sentiment =? Sentiment.NEGATIVE then
    {| icon := "fa-face-frown"; color := "text-rose-500";
       bg := "bg-rose-50"; label := "Negative Pulse" |}
  else
    {| icon := "fa-face-meh"; color := "text-amber-500";
       bg := "bg-amber-50"; label := "Neutral Pulse" |}.

End AnalysisResult.

Module ListingResult.

(** [v[i]] for an index [i]: an element of an array, a character of a
    string, the property named by the digits of [i] of an object;
    [undefined] where there is none; an exception on [null] and
    [undefined]. *)
Definition index (v : value) (i : nat) : outcome value :=
  match v with
  | VUndefined | VNull => Throw TypeError
  | VArr elems =>
      Return (match nth_error elems i with Some x => x | None => VUndefined end)
  | VStr s =>
      Return (match String.get i s with
              | Some c => VStr (String c EmptyString)
              | None => VUndefined
              end)
  | VObj props => Return (Js.assoc (JsString.of_Z (Z.of_nat i)) props)
  | VBool _ | VNum _ => Return VUndefined
  end.

(** The variant switcher: one button per title, carrying its index. *)
Definition variant_buttons (data : ListingGenerationResponse)
  : outcome (list nat) :=
  titles <- Js.map (product_title_variants data) (fun title => Return title) ;;
  Return (seq 0 (List.length titles)).

(** What is shown as title and as description of the active variant. *)
Definition shown_title (data : ListingGenerationResponse) (activeVariant : nat)
  : outcome value :=
  index (product_title_variants data) activeVariant.

Definition shown_description (data : ListingGenerationResponse)
    (activeVariant : nat) : outcome value :=
  index (full_description_variants data) activeVariant.

(** The click on "Copy All": the array whose [join] goes to the
    clipboard.  Only an array has a callable [join]. *)
Definition bullets_to_copy (data : ListingGenerationResponse)
    (activeVariant : nat) : outcome (list value) :=
  bullets <- index (bullet_point_variants data) activeVariant ;;
  match bullets with
  | VArr items => Return items
  | _ => Throw TypeError
  end.

End ListingResult.

(* ================================================================== *)
(** ** Vocabulary of the further properties *)

(** A string of white space only, the empty one included. *)
Fixpoint all_whitespace (s : string) : bool :=
  match s with
  | EmptyString => true
  | String c rest => JsString.is_whitespace c && all_whitespace rest
  end.

(** The four fields of a review-analysis body that are converted, each
    missing (or falsy) or of the type the conversion can work on. *)
Definition converted_fields_expected (raw : value) : bool :=
  falsy_or Js.is_string (field raw "overall_sentiment")
  && falsy_or (array_of entry_with_frequency) (field raw "top_pain_points")
  && falsy_or (array_of entry_with_frequency) (field raw "top_positive_features")
  && falsy_or (array_of entry_present) (field raw "competitive_gaps").

(** An entry of [key_factors]: not [null], its [impact] missing, falsy or
    a string. *)
Definition entry_with_impact (v : value) : bool :=
  entry_present v && falsy_or Js.is_string (field v "impact").

Definition prediction_fields_expected (raw : value) : bool :=
  falsy_or (array_of entry_with_impact) (field raw "key_factors")
  && falsy_or Js.is_string (field raw "confidence_level").

(** What normalisation makes of a body without any of the fields. *)
Definition all_default_analysis : ReviewAnalysisResponse :=
  {| overall_sentiment := "neutral";
     top_pain_points := [];
     top_positive_features := [];
     competitive_gaps := [];
     actionable_recommendations :=
       VArr [VStr "No specific recommendations available"] |}.

Definition all_default_prediction : PredictionExplanationResponse :=
  {| prediction_summary :=
       VStr "Model analysis suggests favorable market conditions.";
     key_factors := [];
     recommended_actions := default_recommended_actions;
     confidence_level := "medium" |}.

(** A JSON value that is neither [null] nor an object. *)
Definition bare (raw : value) : bool :=
  match raw with
  | VBool _ | VNum _ | VStr _ | VArr _ => true
  | _ => false
  end.

(** What the result views rely on in an entry of a result: an enum
    member where an enum is expected, and a text that is not missing. *)
Definition pain_point_well_formed (p : PainPoint) : Prop :=
  Frequency.member (pp_frequency_estimate p) = true
  /\ Js.truthy (issue p) = true
  /\ Js.truthy (pp_example_review_excerpt p) = true.

Definition positive_feature_well_formed (p : PositiveFeature) : Prop :=
  Frequency.member (pf_frequency_estimate p) = true
  /\ Js.truthy (feature p) = true
  /\ Js.truthy (pf_example_review_excerpt p) = true.


Definition factor_well_formed (f : PredictionFactor) : Prop :=
  ImpactLevel.member (impact f) = true /\ Js.truthy (factor f) = true.

(* ================================================================== *)
(** * Properties *)

(** ** Enum helpers *)

Section EnumHelpers.

Lemma toLowerCase_or_empty (s : string) :
  Js.toLowerCase (VStr s ||| VStr "") = Return (JsString.toLowerCase s).
Proof. destruct s; reflexivity. Qed.

Lemma toSentiment_string (s : string) :
  toSentiment (VStr s) =
  Return (let normalized := JsString.trim (JsString.toLowerCase s) in
          if Sentiment.member normalized then normalized
          else Sentiment.NEUTRAL).
Proof.
  unfold toSentiment. rewrite toLowerCase_or_empty. cbn [bind].
  unfold Sentiment.member, Sentiment.members, existsb.
  unfold Sentiment.POSITIVE, Sentiment.NEGATIVE.
  fold Sentiment.NEUTRAL.
  rewrite orb_false_r, orb_assoc.
  destruct (_ || _ || _); reflexivity.
Qed.

Lemma toFrequency_string (s : string) :
  toFrequency (VStr s) =
  Return (let normalized := JsString.trim (JsString.toLowerCase s) in
          if Frequency.member normalized then normalized
          else Frequency.MEDIUM).
Proof.
  unfold toFrequency. rewrite toLowerCase_or_empty. cbn [bind].
  unfold Frequency.member, Frequency.members, existsb.
  unfold Frequency.LOW, Frequency.HIGH.
  rewrite orb_false_r, orb_assoc.
  destruct (_ || _ || _); reflexivity.
Qed.

Lemma toImpact_string (s : string) :
  toImpact (VStr s) =
  Return (let normalized := JsString.trim (JsString.toLowerCase s) in
          if ImpactLevel.member normalized then normalized
          else "medium").
Proof.
  unfold toImpact. rewrite toLowerCase_or_empty. cbn [bind].
  unfold ImpactLevel.member, ImpactLevel.members, existsb.
  rewrite orb_false_r, orb_assoc.
  destruct (_ || _ || _); reflexivity.
Qed.

Lemma member_cases (x a b c : string) :
  existsb (String.eqb x) [a; b; c] = true -> x = a \/ x = b \/ x = c.
Proof.
  cbn [existsb]. rewrite orb_false_r.
  intros H. apply orb_true_iff in H as [H | H];
    [| apply orb_true_iff in H as [H | H]];
    apply String.eqb_eq in H; auto.
Qed.

End EnumHelpers.

(** C5. For every raw string, [toSentiment], [toFrequency] and [toImpact]
    lower-case the string, then trim it; when what is left is a member of
    the enum it is the result, and otherwise the result is the enum's
    default: neutral for Sentiment, medium for Frequency, medium for the
    impact level.  None of them throws on a string. *)
Theorem enum_normalization_rule (raw : string) :
  let normalized := JsString.trim (JsString.toLowerCase raw) in
  toSentiment (VStr raw)
    = Return (if Sentiment.member normalized then normalized else "neutral")
  /\ toFrequency (VStr raw)
    = Return (if Frequency.member normalized then normalized else "medium")
  /\ toImpact (VStr raw)
    = Return (if ImpactLevel.member normalized then normalized else "medium").
Proof.
  repeat split.
  - apply toSentiment_string.
  - apply toFrequency_string.
  - apply toImpact_string.
Qed.

Example toSentiment_mixed_case :
  toSentiment (VStr "  PoSiTiVe ") = Return Sentiment.POSITIVE.
Proof. reflexivity. Qed.

Example toFrequency_unrecognized :
  toFrequency (VStr "often") = Return Frequency.MEDIUM.
Proof. reflexivity. Qed.

Example toImpact_absent : toImpact VUndefined = Return "medium".
Proof. reflexivity. Qed.

(** C6. Enum normalisation is idempotent on raw strings: whatever
    [toSentiment], [toFrequency] or [toImpact] makes of a raw string
    (mixed case, surrounding white space, unrecognised), normalising that
    result again gives the same result. *)
Theorem enum_normalization_idempotent (raw : string) :
  (exists v, toSentiment (VStr raw) = Return v /\ toSentiment (VStr v) = Return v)
  /\ (exists v, toFrequency (VStr raw) = Return v /\ toFrequency (VStr v) = Return v)
  /\ (exists v, toImpact (VStr raw) = Return v /\ toImpact (VStr v) = Return v).
Proof.
  repeat split.
  - rewrite toSentiment_string. cbv zeta.
    destruct (Sentiment.member _) eqn:M.
    + eexists; split; [reflexivity |].
      apply member_cases in M as [-> | [-> | ->]]; reflexivity.
    + eexists; split; reflexivity.
  - rewrite toFrequency_string. cbv zeta.
    destruct (Frequency.member _) eqn:M.
    + eexists; split; [reflexivity |].
      apply member_cases in M as [-> | [-> | ->]]; reflexivity.
    + eexists; split; reflexivity.
  - rewrite toImpact_string. cbv zeta.
    destruct (ImpactLevel.member _) eqn:M.
    + eexists; split; [reflexivity |].
      apply member_cases in M as [-> | [-> | ->]]; reflexivity.
    + eexists; split; reflexivity.
Qed.

(** ** Fail-open service calls *)

Section FailOpen.

Variables (productReviews competitorReviews : string).
Variables (listing_input : ListingInput) (prediction_input : PredictionInput).

Lemma analyzeReviews_on_failure (net : FetchResult) :
  request_failed net = true ->
  analyzeReviews productReviews competitorReviews net
  = Return analyzeReviews_fallback.
Proof.
  unfold analyzeReviews, request_failed, json.
  destruct net as [reason | r]; cbn [fetch bind try_catch]; [reflexivity |].
  destruct (ok r); cbn [negb orb try_catch]; [| reflexivity].
  destruct (body_json r); [discriminate | reflexivity].
Qed.

Lemma generateListing_on_failure (net : FetchResult) :
  request_failed net = true ->
  generateListing listing_input net
  = Return (generateListing_fallback listing_input).
Proof.
  unfold generateListing, request_failed, json.
  destruct net as [reason | r]; cbn [fetch bind try_catch]; [reflexivity |].
  destruct (ok r); cbn [negb orb try_catch]; [| reflexivity].
  destruct (body_json r); [discriminate | reflexivity].
Qed.

Lemma explainPrediction_on_failure (net : FetchResult) :
  request_failed net = true ->
  explainPrediction prediction_input net = Return explainPrediction_fallback.
Proof.
  unfold explainPrediction, request_failed, json.
  destruct net as [reason | r]; cbn [fetch bind try_catch]; [reflexivity |].
  destruct (ok r); cbn [negb orb try_catch]; [| reflexivity].
  destruct (body_json r); [discriminate | reflexivity].
Qed.

(** Whatever the network does, a service call hands its caller a result:
    the [catch] covers the whole body. *)
Lemma analyzeReviews_returns (net : FetchResult) :
  exists r, analyzeReviews productReviews competitorReviews net = Return r.
Proof.
  unfold analyzeReviews.
  destruct (bind (fetch net) _); cbn [try_catch]; eauto.
Qed.

Lemma generateListing_returns (net : FetchResult) :
  exists r, generateListing listing_input net = Return r.
Proof.
  unfold generateListing.
  destruct (bind (fetch net) _); cbn [try_catch]; eauto.
Qed.

Lemma explainPrediction_returns (net : FetchResult) :
  exists r, explainPrediction prediction_input net = Return r.
Proof.
  unfold explainPrediction.
  destruct (bind (fetch net) _); cbn [try_catch]; eauto.
Qed.

End FailOpen.

(** C1, as stated, fails: the fallback of [generateListing] is not one
    fixed result.  With the network down, the listing for a lamp and the
    listing for a desk come back different, so no single value is the
    fallback for every input. *)
Lemma listing_fallback_varies_with_input :
  let lamp := {| productName := "Lamp"; category := "Home"; features := "dimmable";
                 targetAudience := "readers"; brandTone := "Professional" |} in
  let desk := {| productName := "Desk"; category := "Home"; features := "dimmable";
                 targetAudience := "readers"; brandTone := "Professional" |} in
  let offline := Rejected "Failed to fetch" in
  request_failed offline = true
  /\ generateListing lamp offline <> generateListing desk offline
  /\ ~ (exists fixed, forall input net,
          request_failed net = true -> generateListing input net = Return fixed).
Proof.
  cbv zeta. split; [reflexivity |]. split.
  - cbn. intros H. discriminate H.
  - intros [fixed H].
    pose proof (H {| productName := "Lamp"; category := "Home";
                     features := "dimmable"; targetAudience := "readers";
                     brandTone := "Professional" |}
                  (Rejected "Failed to fetch") eq_refl) as HL.
    pose proof (H {| productName := "Desk"; category := "Home";
                     features := "dimmable"; targetAudience := "readers";
                     brandTone := "Professional" |}
                  (Rejected "Failed to fetch") eq_refl) as HD.
    rewrite <- HD in HL. cbn in HL. discriminate HL.
Qed.

(** C1, amended.  For every input and every failed request (no response,
    a status outside 2xx, a body that is not JSON) none of the three
    service calls throws.  [analyzeReviews] and [explainPrediction] return
    one fixed fallback each; [generateListing] returns its fallback
    template filled in with the fields of the listing input, the same for
    every kind of failure.  The fallback of [analyzeReviews] has
    [overall_sentiment] positive. *)
Theorem fail_open_fallbacks
    (productReviews competitorReviews : string)
    (listing_input : ListingInput) (prediction_input : PredictionInput)
    (net : FetchResult) :
  request_failed net = true ->
  analyzeReviews productReviews competitorReviews net
    = Return analyzeReviews_fallback
  /\ generateListing listing_input net
    = Return (generateListing_fallback listing_input)
  /\ explainPrediction prediction_input net
    = Return explainPrediction_fallback
  /\ overall_sentiment analyzeReviews_fallback = "positive".
Proof.
  intros F. repeat split.
  - now apply analyzeReviews_on_failure.
  - now apply generateListing_on_failure.
  - now apply explainPrediction_on_failure.
Qed.

(** The scenario of the specification: a network error during
    [analyzeReviews("great product")]. *)
Lemma fail_open_fallbacks_witness :
  request_failed (Rejected "Failed to fetch") = true
  /\ analyzeReviews "great product" "" (Rejected "Failed to fetch")
     = Return analyzeReviews_fallback
  /\ overall_sentiment analyzeReviews_fallback = "positive".
Proof.
  split; [reflexivity |].
  pose proof (fail_open_fallbacks "great product" ""
                (listingInput initial_state) (predInput initial_state)
                (Rejected "Failed to fetch") eq_refl) as [A [_ [_ P]]].
  split; [exact A | exact P].
Defined.

(** ** Listing variants *)






(** ** Review analysis: the success path *)

Lemma analyzeReviews_on_success (productReviews competitorReviews : string)
    (r : Response) (raw : value) :
  ok r = true -> body_json r = Some raw ->
  analyzeReviews productReviews competitorReviews (Responded r)
  = try_catch (normalizeReviewAnalysis raw)
              (fun _ => Return analyzeReviews_fallback).
Proof.
  intros Hok Hbody. unfold analyzeReviews, json.
  cbn [fetch bind]. rewrite Hok, Hbody. reflexivity.
Qed.

(** C9. When the backend answers a review analysis with a 2xx status and
    the body [{ "overall_sentiment": "POSITIVE", "top_pain_points": [] }],
    the result has [overall_sentiment] positive, no pain points, the
    single recommendation "No specific recommendations available" and no
    competitive gaps. *)
Theorem analysis_of_sparse_success_body
    (productReviews competitorReviews : string) (r : Response) :
  ok r = true ->
  body_json r = Some (VObj [("overall_sentiment", VStr "POSITIVE");
                            ("top_pain_points", VArr [])]) ->
  exists res,
    analyzeReviews productReviews competitorReviews (Responded r) = Return res
    /\ overall_sentiment res = "positive"
    /\ top_pain_points res = []
    /\ actionable_recommendations res
       = VArr [VStr "No specific recommendations available"]
    /\ competitive_gaps res = [].
Proof.
  intros Hok Hbody.
  rewrite (analyzeReviews_on_success _ _ r _ Hok Hbody).
  eexists. split; [reflexivity |]. repeat split.
Qed.

Lemma analysis_of_sparse_success_body_witness :
  exists res,
    analyzeReviews "Great product but shipping is slow." ""
      (Responded {| status := 200; statusText := "OK";
                    body_text := "";
                    body_json := Some (VObj [("overall_sentiment", VStr "POSITIVE");
                                             ("top_pain_points", VArr [])]) |})
    = Return res
    /\ overall_sentiment res = "positive"
    /\ top_pain_points res = []
    /\ actionable_recommendations res
       = VArr [VStr "No specific recommendations available"]
    /\ competitive_gaps res = [].
Proof.
  apply (analysis_of_sparse_success_body
           "Great product but shipping is slow." ""
           {| status := 200; statusText := "OK"; body_text := "";
              body_json := Some (VObj [("overall_sentiment", VStr "POSITIVE");
                                       ("top_pain_points", VArr [])]) |});
    reflexivity.
Defined.

(** ** Review analysis: when normalisation returns *)

Section Returns.

Lemma returns_true {A : Type} (o : outcome A) :
  returns o = true -> exists a, o = Return a.
Proof. destruct o; [eauto | discriminate]. Qed.

Lemma forallb_pointwise {A : Type} (f g : A -> bool) (l : list A) :
  (forall x, f x = g x) -> forallb f l = forallb g l.
Proof.
  intros E. induction l as [| x l IH]; cbn; [reflexivity |].
  now rewrite E, IH.
Qed.

Lemma returns_map_outcome {A B : Type} (f : A -> outcome B) (l : list A) :
  returns (map_outcome f l) = forallb (fun x => returns (f x)) l.
Proof.
  induction l as [| x l IH]; cbn; [reflexivity |].
  destruct (f x); cbn; [| reflexivity].
  rewrite <- IH. destruct (map_outcome f l); reflexivity.
Qed.

Lemma returns_map_or_empty {B : Type} (v : value) (f : value -> outcome B) :
  returns (Js.map (v ||| VArr []) f)
  = falsy_or (array_of (fun x => returns (f x))) v.
Proof.
  unfold falsy_or, Js.or.
  destruct v as [| | b | n | s | elems | props]; cbn; try reflexivity.
  - destruct b; reflexivity.
  - destruct (n =? 0)%Z; reflexivity.
  - destruct (s =? ""); reflexivity.
  - apply returns_map_outcome.
Qed.

Lemma returns_toLowerCase_or_empty (v : value) :
  returns (Js.toLowerCase (v ||| VStr "")) = falsy_or Js.is_string v.
Proof.
  unfold falsy_or, Js.or.
  destruct v as [| | b | n | s | elems | props]; cbn; try reflexivity.
  - destruct b; reflexivity.
  - destruct (n =? 0)%Z; reflexivity.
  - destruct (s =? ""); reflexivity.
Qed.

Lemma returns_toFrequency (v : value) :
  returns (toFrequency v) = falsy_or Js.is_string v.
Proof.
  unfold toFrequency. rewrite <- returns_toLowerCase_or_empty.
  destruct (Js.toLowerCase _); cbn; [| reflexivity].
  destruct (_ || _ || _); reflexivity.
Qed.

Lemma returns_toSentiment (v : value) :
  returns (toSentiment v) = falsy_or Js.is_string v.
Proof.
  unfold toSentiment. rewrite <- returns_toLowerCase_or_empty.
  destruct (Js.toLowerCase _); cbn; [| reflexivity].
  destruct (_ || _ || _); reflexivity.
Qed.

Lemma returns_toImpact (v : value) :
  returns (toImpact v) = falsy_or Js.is_string v.
Proof.
  unfold toImpact. rewrite <- returns_toLowerCase_or_empty.
  destruct (Js.toLowerCase _); cbn; [| reflexivity].
  destruct (_ || _ || _); reflexivity.
Qed.

Lemma returns_convert_pain_point (v : value) :
  returns (convert_pain_point v) = entry_with_frequency v.
Proof.
  unfold convert_pain_point, entry_with_frequency, field.
  destruct v; cbn [Js.get bind entry_present andb]; try reflexivity;
    rewrite <- returns_toFrequency; destruct (toFrequency _); reflexivity.
Qed.

Lemma returns_convert_positive_feature (v : value) :
  returns (convert_positive_feature v) = entry_with_frequency v.
Proof.
  unfold convert_positive_feature, entry_with_frequency, field.
  destruct v; cbn [Js.get bind entry_present andb]; try reflexivity;
    rewrite <- returns_toFrequency; destruct (toFrequency _); reflexivity.
Qed.

Lemma returns_convert_competitive_gap (v : value) :
  returns (convert_competitive_gap v) = entry_present v.
Proof. destruct v; reflexivity. Qed.

Lemma is_array_or_default (v : value) (l : list value) :
  Js.is_array (v ||| VArr l) = falsy_or Js.is_array v.
Proof.
  unfold falsy_or, Js.or.
  destruct v as [| | b | n | s | elems | props]; cbn; try reflexivity.
  - destruct b; reflexivity.
  - destruct (n =? 0)%Z; reflexivity.
  - destruct (s =? ""); reflexivity.
Qed.

(** [normalizeReviewAnalysis] on an object returns exactly when the four
    converted fields have the expected shape. *)
Lemma returns_normalizeReviewAnalysis (props : list (string * value)) :
  returns (normalizeReviewAnalysis (VObj props))
  = falsy_or Js.is_string (Js.assoc "overall_sentiment" props)
    && falsy_or (array_of entry_with_frequency) (Js.assoc "top_pain_points" props)
    && falsy_or (array_of entry_with_frequency)
         (Js.assoc "top_positive_features" props)
    && falsy_or (array_of entry_present) (Js.assoc "competitive_gaps" props).
Proof.
  unfold normalizeReviewAnalysis. cbn [Js.get bind].
  rewrite <- returns_toSentiment.
  destruct (toSentiment _); cbn [bind returns andb]; [| reflexivity].
  assert (P : forall v, falsy_or (array_of entry_with_frequency) v
                        = returns (Js.map (v ||| VArr []) convert_pain_point)).
  { intros v. rewrite returns_map_or_empty. unfold falsy_or, array_of.
    destruct v; try reflexivity. f_equal.
    apply forallb_pointwise. intros x. now rewrite returns_convert_pain_point. }
  assert (F : forall v, falsy_or (array_of entry_with_frequency) v
                        = returns (Js.map (v ||| VArr []) convert_positive_feature)).
  { intros v. rewrite returns_map_or_empty. unfold falsy_or, array_of.
    destruct v; try reflexivity. f_equal.
    apply forallb_pointwise. intros x.
    now rewrite returns_convert_positive_feature. }
  assert (G : forall v, falsy_or (array_of entry_present) v
                        = returns (Js.map (v ||| VArr []) convert_competitive_gap)).
  { intros v. rewrite returns_map_or_empty. unfold falsy_or, array_of.
    destruct v; try reflexivity. f_equal.
    apply forallb_pointwise. intros x.
    now rewrite returns_convert_competitive_gap. }
  rewrite P.
  destruct (Js.map _ convert_pain_point); cbn [bind returns andb]; [| reflexivity].
  rewrite F.
  destruct (Js.map _ convert_positive_feature); cbn [bind returns andb];
    [| reflexivity].
  rewrite G.
  destruct (Js.map _ convert_competitive_gap); reflexivity.
Qed.

(** When it returns, the recommendations are the raw ones if truthy and
    the one-entry default otherwise. *)
Lemma normalizeReviewAnalysis_recommendations
    (props : list (string * value)) (res : ReviewAnalysisResponse) :
  normalizeReviewAnalysis (VObj props) = Return res ->
  actionable_recommendations res
  = Js.assoc "actionable_recommendations" props
    ||| VArr [VStr "No specific recommendations available"].
Proof.
  unfold normalizeReviewAnalysis. cbn [Js.get bind].
  destruct (toSentiment _); cbn [bind]; [| discriminate].
  destruct (Js.map _ convert_pain_point); cbn [bind]; [| discriminate].
  destruct (Js.map _ convert_positive_feature); cbn [bind]; [| discriminate].
  destruct (Js.map _ convert_competitive_gap); cbn [bind]; [| discriminate].
  intros [= <-]. reflexivity.
Qed.

End Returns.

(** C3, as stated, fails.  A field of unexpected type makes the
    normalisation throw (a number where the sentiment should be, a string
    where the pain points should be), and a string in place of the
    recommendations comes out as that string, not as a sequence, also
    from [analyzeReviews] as a whole. *)
Lemma review_normalization_throws_or_passes_junk :
  normalizeReviewAnalysis (VObj [("overall_sentiment", VNum 5)]) = Throw TypeError
  /\ normalizeReviewAnalysis (VObj [("top_pain_points", VStr "slow shipping")])
     = Throw TypeError
  /\ (exists res,
        normalizeReviewAnalysis
          (VObj [("actionable_recommendations", VStr "ship faster")])
        = Return res
        /\ actionable_recommendations res = VStr "ship faster"
        /\ Js.is_array (actionable_recommendations res) = false)
  /\ (exists res,
        analyzeReviews "Great product" ""
          (Responded
             {| status := 200; statusText := "OK"; body_text := "";
                body_json :=
                  Some (VObj [("actionable_recommendations", VStr "ship faster")]) |})
        = Return res
        /\ Js.is_array (actionable_recommendations res) = false).
Proof.
  repeat split; eexists; repeat split.
Qed.

(** C3, amended.  For every raw review-analysis object in which each
    field is missing (or null, or otherwise falsy) or of the expected type
    (the sentiment and every [frequency_estimate] a string in any case,
    the three converted sequences arrays without null entries, the
    recommendations an array), the normalisation step does not throw and
    every sequence field of its output is a sequence; and for objects
    this shape is also necessary.  A field of another type makes the step
    throw or, for the recommendations, pass through; the throw does not
    reach the caller of [analyzeReviews], which always returns a result. *)
Theorem review_normalization_on_expected_shape :
  (forall raw, expected_review_shape raw = true ->
     exists res, normalizeReviewAnalysis raw = Return res
       /\ Js.is_array (actionable_recommendations res) = true)
  /\ (forall props res,
        normalizeReviewAnalysis (VObj props) = Return res ->
        Js.is_array (actionable_recommendations res) = true ->
        expected_review_shape (VObj props) = true)
  /\ (forall productReviews competitorReviews net,
        exists res, analyzeReviews productReviews competitorReviews net = Return res).
Proof.
  split; [| split].
  - intros raw Shape. destruct raw as [| | | | | | props]; try discriminate.
    unfold expected_review_shape, field in Shape. cbn [Js.get] in Shape.
    apply andb_true_iff in Shape as [Converted Recs].
    rewrite <- returns_normalizeReviewAnalysis in Converted.
    apply returns_true in Converted as [res Hres].
    exists res. split; [exact Hres |].
    rewrite (normalizeReviewAnalysis_recommendations props res Hres).
    now rewrite is_array_or_default.
  - intros props res Hres Recs.
    unfold expected_review_shape, field. cbn [Js.get].
    rewrite <- returns_normalizeReviewAnalysis, Hres. cbn [returns andb].
    rewrite (normalizeReviewAnalysis_recommendations props res Hres) in Recs.
    now rewrite is_array_or_default in Recs.
  - intros. apply analyzeReviews_returns.
Qed.

Lemma review_normalization_on_expected_shape_witness :
  exists res,
    normalizeReviewAnalysis
      (VObj [("overall_sentiment", VStr "POSITIVE");
             ("top_pain_points",
              VArr [VObj [("issue", VStr "Slow shipping");
                          ("frequency_estimate", VStr " High ")];
                    VObj []])])
    = Return res
    /\ Js.is_array (actionable_recommendations res) = true.
Proof.
  apply (proj1 review_normalization_on_expected_shape). reflexivity.
Defined.

Example review_normalization_fills_entries :
  normalizeReviewAnalysis
    (VObj [("overall_sentiment", VStr "POSITIVE");
           ("top_pain_points",
            VArr [VObj [("issue", VStr "Slow shipping");
                        ("frequency_estimate", VStr " High ")];
                  VObj []])])
  = Return {| overall_sentiment := "positive";
              top_pain_points :=
                [ {| issue := VStr "Slow shipping";
                     pp_frequency_estimate := "high";
                     pp_example_review_excerpt := VStr "No example provided" |};
                  {| issue := VStr "Unknown issue";
                     pp_frequency_estimate := "medium";
                     pp_example_review_excerpt := VStr "No example provided" |} ];
              top_positive_features := [];
              competitive_gaps := [];
              actionable_recommendations :=
                VArr [VStr "No specific recommendations available"] |}.
Proof. reflexivity. Qed.

(** ** Defaults of the sequence fields *)

Section FieldByField.

Lemma or_falsy (v d : value) : Js.truthy v = false -> v ||| d = d.
Proof. unfold Js.or. now intros ->. Qed.

Lemma or_truthy (v d : value) : Js.truthy v = true -> v ||| d = v.
Proof. unfold Js.or. now intros ->. Qed.

Lemma map_is_array {B : Type} (v : value) (f : value -> outcome B) (l : list B) :
  Js.map v f = Return l -> Js.is_array v = true.
Proof. destruct v; cbn; try discriminate. reflexivity. Qed.

Lemma map_empty {B : Type} (f : value -> outcome B) (l : list B) :
  Js.map (VArr []) f = Return l -> l = [].
Proof. cbn. now intros [= <-]. Qed.

(** What each field of the result of [normalizeReviewAnalysis] is. *)
Lemma normalizeReviewAnalysis_fields (raw : value) (res : ReviewAnalysisResponse) :
  normalizeReviewAnalysis raw = Return res ->
  toSentiment (field raw "overall_sentiment") = Return (overall_sentiment res)
  /\ Js.map (field raw "top_pain_points" ||| VArr []) convert_pain_point
     = Return (top_pain_points res)
  /\ Js.map (field raw "top_positive_features" ||| VArr []) convert_positive_feature
     = Return (top_positive_features res)
  /\ Js.map (field raw "competitive_gaps" ||| VArr []) convert_competitive_gap
     = Return (competitive_gaps res)
  /\ actionable_recommendations res
     = field raw "actionable_recommendations"
       ||| VArr [VStr "No specific recommendations available"].
Proof.
  unfold normalizeReviewAnalysis, field.
  destruct raw; cbn [Js.get bind]; try discriminate;
    (destruct (toSentiment _); cbn [bind]; [| discriminate];
     destruct (Js.map _ convert_pain_point); cbn [bind]; [| discriminate];
     destruct (Js.map _ convert_positive_feature); cbn [bind]; [| discriminate];
     destruct (Js.map _ convert_competitive_gap); cbn [bind]; [| discriminate];
     intros [= <-]; repeat split).
Qed.

Lemma normalizePrediction_fields (raw : value)
    (res : PredictionExplanationResponse) :
  normalizePrediction raw = Return res ->
  Js.map (field raw "key_factors" ||| VArr []) convert_factor
  = Return (key_factors res)
  /\ recommended_actions res
     = field raw "recommended_actions" ||| default_recommended_actions
  /\ toImpact (field raw "confidence_level") = Return (confidence_level res).
Proof.
  unfold normalizePrediction, field.
  destruct raw; cbn [Js.get bind]; try discriminate;
    (destruct (Js.map _ convert_factor); cbn [bind]; [| discriminate];
     destruct (toImpact _); cbn [bind]; [| discriminate];
     intros [= <-]; repeat split).
Qed.

Lemma normalizeListing_fields (input : ListingInput) (raw : value)
    (res : ListingGenerationResponse) :
  normalizeListing input raw = Return res ->
  product_title_variants res
  = field raw "product_title_variants" ||| default_product_title_variants input
  /\ bullet_point_variants res
     = field raw "bullet_point_variants" ||| default_bullet_point_variants
  /\ full_description_variants res
     = field raw "full_description_variants"
       ||| default_full_description_variants input
  /\ primary_keywords res
     = field raw "primary_keywords" ||| default_primary_keywords input
  /\ secondary_keywords res
     = field raw "secondary_keywords" ||| default_secondary_keywords.
Proof.
  unfold normalizeListing, field.
  destruct raw; cbn [Js.get bind]; try discriminate;
    (intros [= <-]; repeat split).
Qed.

End FieldByField.

(** C4, as stated, fails.  With an empty body the listing defaults have
    three titles, two bullet lists, two descriptions, five and six
    keywords, and the prediction default has three recommended actions:
    neither empty nor of one entry.  And a recommendation field that is a
    string, not a sequence, is kept as it is. *)
Lemma sequence_defaults_of_other_sizes :
  let input := {| productName := "Lamp"; category := "Home"; features := "dimmable";
                  targetAudience := "readers"; brandTone := "Professional" |} in
  (exists res, normalizeListing input (VObj []) = Return res
     /\ Js.length (product_title_variants res) = Some 3
     /\ Js.length (bullet_point_variants res) = Some 2
     /\ Js.length (full_description_variants res) = Some 2
     /\ Js.length (primary_keywords res) = Some 5
     /\ Js.length (secondary_keywords res) = Some 6)
  /\ (exists res, normalizePrediction (VObj []) = Return res
        /\ Js.length (recommended_actions res) = Some 3)
  /\ (exists res,
        normalizeReviewAnalysis
          (VObj [("actionable_recommendations", VStr "ship faster")])
        = Return res
        /\ actionable_recommendations res = VStr "ship faster").
Proof.
  cbv zeta. repeat split; eexists; repeat split.
Qed.

(** C4, amended.  For every raw payload on which normalisation returns,
    and every sequence field whose raw value is absent, null or otherwise
    falsy, the field gets its own default: the empty sequence for
    [top_pain_points], [top_positive_features], [competitive_gaps] and
    [key_factors]; the single entry "No specific recommendations
    available" for [actionable_recommendations]; three entries for
    [recommended_actions]; and for the listing three titles, two bullet
    lists, two descriptions, five primary and six secondary keywords,
    built from the listing input.  A raw value that is present (truthy)
    but not a sequence is not replaced: the copied fields hand it on, and
    the converted fields only let normalisation return when it is an
    array. *)
Theorem sequence_field_defaults :
  (forall raw res, normalizeReviewAnalysis raw = Return res ->
     (Js.truthy (field raw "top_pain_points") = false ->
        top_pain_points res = [])
     /\ (Js.truthy (field raw "top_positive_features") = false ->
           top_positive_features res = [])
     /\ (Js.truthy (field raw "competitive_gaps") = false ->
           competitive_gaps res = [])
     /\ (Js.truthy (field raw "actionable_recommendations") = false ->
           actionable_recommendations res
           = VArr [VStr "No specific recommendations available"])
     /\ (Js.truthy (field raw "actionable_recommendations") = true ->
           actionable_recommendations res
           = field raw "actionable_recommendations")
     /\ (forall key,
           In key ["top_pain_points"; "top_positive_features"; "competitive_gaps"] ->
           Js.truthy (field raw key) = true ->
           Js.is_array (field raw key) = true))
  /\ (forall raw res, normalizePrediction raw = Return res ->
        (Js.truthy (field raw "key_factors") = false -> key_factors res = [])
        /\ (Js.truthy (field raw "recommended_actions") = false ->
              recommended_actions res
              = VArr [VStr "Monitor market trends closely";
                      VStr "Collect additional performance data";
                      VStr "Consider A/B testing different strategies"])
        /\ (Js.truthy (field raw "recommended_actions") = true ->
              recommended_actions res = field raw "recommended_actions")
        /\ (Js.truthy (field raw "key_factors") = true ->
              Js.is_array (field raw "key_factors") = true))
  /\ (forall input raw res, normalizeListing input raw = Return res ->
        (Js.truthy (field raw "product_title_variants") = false ->
           product_title_variants res = default_product_title_variants input
           /\ Js.length (product_title_variants res) = Some 3)
        /\ (Js.truthy (field raw "bullet_point_variants") = false ->
              bullet_point_variants res = default_bullet_point_variants
              /\ Js.length (bullet_point_variants res) = Some 2)
        /\ (Js.truthy (field raw "full_description_variants") = false ->
              full_description_variants res
              = default_full_description_variants input
              /\ Js.length (full_description_variants res) = Some 2)
        /\ (Js.truthy (field raw "primary_keywords") = false ->
              primary_keywords res = default_primary_keywords input
              /\ Js.length (primary_keywords res) = Some 5)
        /\ (Js.truthy (field raw "secondary_keywords") = false ->
              secondary_keywords res = default_secondary_keywords
              /\ Js.length (secondary_keywords res) = Some 6)
        /\ (Js.truthy (field raw "product_title_variants") = true ->
              product_title_variants res = field raw "product_title_variants")
        /\ (Js.truthy (field raw "bullet_point_variants") = true ->
              bullet_point_variants res = field raw "bullet_point_variants")
        /\ (Js.truthy (field raw "full_description_variants") = true ->
              full_description_variants res
              = field raw "full_description_variants")
        /\ (Js.truthy (field raw "primary_keywords") = true ->
              primary_keywords res = field raw "primary_keywords")
        /\ (Js.truthy (field raw "secondary_keywords") = true ->
              secondary_keywords res = field raw "secondary_keywords")).
Proof.
  split; [| split].
  - intros raw res Hres.
    destruct (normalizeReviewAnalysis_fields raw res Hres)
      as (_ & Pain & Positive & Gaps & Recs).
    repeat split.
    + intros F. rewrite (or_falsy _ _ F) in Pain. now apply map_empty in Pain.
    + intros F. rewrite (or_falsy _ _ F) in Positive.
      now apply map_empty in Positive.
    + intros F. rewrite (or_falsy _ _ F) in Gaps. now apply map_empty in Gaps.
    + intros F. now rewrite Recs, (or_falsy _ _ F).
    + intros T. now rewrite Recs, (or_truthy _ _ T).
    + intros key [<- | [<- | [<- | []]]] T.
      * apply map_is_array in Pain. now rewrite (or_truthy _ _ T) in Pain.
      * apply map_is_array in Positive. now rewrite (or_truthy _ _ T) in Positive.
      * apply map_is_array in Gaps. now rewrite (or_truthy _ _ T) in Gaps.
  - intros raw res Hres.
    destruct (normalizePrediction_fields raw res Hres) as (Factors & Actions & _).
    repeat split.
    + intros F. rewrite (or_falsy _ _ F) in Factors. now apply map_empty in Factors.
    + intros F. now rewrite Actions, (or_falsy _ _ F).
    + intros T. now rewrite Actions, (or_truthy _ _ T).
    + intros T. apply map_is_array in Factors.
      now rewrite (or_truthy _ _ T) in Factors.
  - intros input raw res Hres.
    destruct (normalizeListing_fields input raw res Hres)
      as (Titles & Bullets & Descriptions & Primary & Secondary).
    repeat split; intros; subst;
      rewrite ?Titles, ?Bullets, ?Descriptions, ?Primary, ?Secondary;
      first [ rewrite or_falsy by assumption; reflexivity
            | rewrite or_truthy by assumption; reflexivity ].
Qed.

Lemma sequence_field_defaults_witness :
  let input := {| productName := "Lamp"; category := "Home"; features := "dimmable";
                  targetAudience := "readers"; brandTone := "Professional" |} in
  (exists res, normalizeReviewAnalysis (VObj []) = Return res
     /\ top_pain_points res = []
     /\ actionable_recommendations res
        = VArr [VStr "No specific recommendations available"])
  /\ (exists res, normalizePrediction (VObj [("key_factors", VNull)]) = Return res
        /\ key_factors res = []
        /\ Js.length (recommended_actions res) = Some 3)
  /\ (exists res, normalizeListing input (VObj []) = Return res
        /\ Js.length (product_title_variants res) = Some 3
        /\ Js.length (bullet_point_variants res) = Some 2).
Proof.
  cbv zeta.
  destruct sequence_field_defaults as (Review & Prediction & Listing).
  split; [| split]; (eexists; split; [reflexivity |]).
  - split.
    + apply (Review (VObj []) _ eq_refl). reflexivity.
    + apply (Review (VObj []) _ eq_refl). reflexivity.
  - split.
    + apply (Prediction (VObj [("key_factors", VNull)]) _ eq_refl). reflexivity.
    + destruct (Prediction (VObj [("key_factors", VNull)]) _ eq_refl)
        as (_ & Actions & _).
      rewrite Actions; reflexivity.
  - split.
    + apply (Listing {| productName := "Lamp"; category := "Home";
                        features := "dimmable"; targetAudience := "readers";
                        brandTone := "Professional" |} (VObj []) _ eq_refl).
      reflexivity.
    + apply (Listing {| productName := "Lamp"; category := "Home";
                        features := "dimmable"; targetAudience := "readers";
                        brandTone := "Professional" |} (VObj []) _ eq_refl).
      reflexivity.
Defined.

(** ** Submit handlers *)

Section Submit.

Lemma empty_required_field_fails_validation (mode : Tab) (s : State) :
  required_field_empty mode s = true -> passes_validation mode s = false.
Proof.
  unfold required_field_empty.
  destruct mode; cbn [required_fields existsb passes_validation];
    rewrite orb_false_r.
  - intros E. apply String.eqb_eq in E. now rewrite E.
  - now intros ->.
  - now intros ->.
Qed.

(** A submit that fails validation only sets the validation message. *)
Lemma submit_invalid (mode : Tab) (w : World) :
  passes_validation mode (state w) = false ->
  submit mode w = with_state (setError (Some (validation_message mode))) w.
Proof.
  destruct mode;
    cbn [passes_validation submit validation_message];
    unfold handleAnalyzeReviews, handleGenerateListing, handleExplainPrediction;
    intros V; apply negb_false_iff in V; now rewrite V.
Qed.

(** A valid submit without connection only sets the connectivity message. *)
Lemma submit_disconnected (mode : Tab) (w : World) :
  passes_validation mode (state w) = true ->
  connected (backendHealth (state w)) = false ->
  submit mode w = with_state (setError (Some connectivity_message)) w.
Proof.
  destruct mode;
    cbn [passes_validation submit];
    unfold handleAnalyzeReviews, handleGenerateListing, handleExplainPrediction;
    intros V C; apply negb_true_iff in V; now rewrite V, C.
Qed.

(** A valid submit with connection sends the mode's request. *)
Lemma submit_accepted (mode : Tab) (w : World) :
  passes_validation mode (state w) = true ->
  connected (backendHealth (state w)) = true ->
  requests (submit mode w) = (requests w ++ [request_of mode (state w)])%list
  /\ isLoading (state (submit mode w)) = true
  /\ error (state (submit mode w)) = None.
Proof.
  destruct mode;
    cbn [passes_validation submit request_of];
    unfold handleAnalyzeReviews, handleGenerateListing, handleExplainPrediction;
    intros V C; apply negb_true_iff in V; rewrite V, C;
    repeat split.
Qed.

Lemma phase_setError (m : Tab) (x : option string) (s : State) :
  phase m (setError x s) = phase m s.
Proof. destruct m; reflexivity. Qed.

End Submit.

(** C8. For every mode, a submit while a required field of the mode is
    empty, or while the backend is not connected, issues no network call:
    the request log is unchanged, every mode stays in the phase it was in
    (so the form stays the form), and the only change is the message that
    is set: the mode's validation message when a required field is empty,
    else the connectivity message. *)
Theorem submit_blocked_without_network_call (mode : Tab) (w : World) :
  required_field_empty mode (state w) = true
  \/ connected (backendHealth (state w)) = false ->
  let surfaced :=
    if passes_validation mode (state w) then connectivity_message
    else validation_message mode in
  submit mode w = with_state (setError (Some surfaced)) w
  /\ requests (submit mode w) = requests w
  /\ (forall m, phase m (state (submit mode w)) = phase m (state w))
  /\ error (state (submit mode w)) = Some surfaced
  /\ (required_field_empty mode (state w) = true ->
      surfaced = validation_message mode).
Proof.
  intros Blocked. cbv zeta.
  assert (E : submit mode w
              = with_state
                  (setError
                     (Some (if passes_validation mode (state w)
                            then connectivity_message
                            else validation_message mode))) w).
  { destruct (passes_validation mode (state w)) eqn:V.
    - destruct Blocked as [Empty | Down].
      + apply empty_required_field_fails_validation in Empty. congruence.
      + now apply submit_disconnected.
    - now apply submit_invalid. }
  rewrite E.
  split; [reflexivity |]. split; [reflexivity |].
  split; [intros m; cbn [with_state state]; apply phase_setError |].
  split; [reflexivity |].
  intros Empty.
  now rewrite (empty_required_field_fails_validation mode _ Empty).
Qed.

(** The scenario of the specification: the listing form submitted with
    product name [""] and features ["x"], the backend connected. *)
Lemma submit_blocked_without_network_call_witness :
  let w := run initial_world
             [ Mount;
               ProbeAnswered 0
                 (Responded {| status := 200; statusText := "OK"; body_text := "";
                               body_json := Some (VObj [("port", VNum 5000)]) |});
               ClickTab listing;
               EditListing {| productName := ""; category := ""; features := "x";
                              targetAudience := ""; brandTone := "Professional" |} ] in
  connected (backendHealth (state w)) = true
  /\ requests w = [GetHealth]
  /\ requests (submit listing w) = [GetHealth]
  /\ phase listing (state w) = InputPhase
  /\ phase listing (state (submit listing w)) = InputPhase
  /\ error (state (submit listing w))
     = Some "Product Name and Features are required for copywriting.".
Proof.
  cbv zeta.
  match goal with
  | |- context [submit listing ?w0] =>
      pose proof (submit_blocked_without_network_call listing w0
                    (or_introl eq_refl)) as (_ & Calls & Phases & Message & _)
  end.
  split; [reflexivity |]. split; [reflexivity |].
  split; [exact Calls |]. split; [reflexivity |].
  split; [rewrite Phases; reflexivity | exact Message].
Defined.

(** C10. Required-field validation is not uniform across modes.  With
    the backend connected and every required field non-empty but one of
    them only white space, the review-analysis submit is rejected: its
    check trims the reviews, no network call is issued and the validation
    message is set.  The listing and prediction submits pass, because
    they only check for the empty string: the request is sent and the
    mode goes to loading. *)
Theorem whitespace_validation_differs (mode : Tab) (w : World) :
  connected (backendHealth (state w)) = true ->
  filled_with_whitespace mode (state w) = true ->
  match mode with
  | analysis =>
      requests (submit mode w) = requests w
      /\ error (state (submit mode w))
         = Some "Provide product reviews to begin analysis."
      /\ isLoading (state (submit mode w)) = isLoading (state w)
  | listing | prediction =>
      requests (submit mode w) = (requests w ++ [request_of mode (state w)])%list
      /\ error (state (submit mode w)) = None
      /\ isLoading (state (submit mode w)) = true
  end.
Proof.
  intros Up Fields. unfold filled_with_whitespace in Fields.
  apply andb_true_iff in Fields as [Filled Blank].
  destruct mode; cbn [required_fields forallb existsb] in Filled, Blank.
  - rewrite orb_false_r in Blank. unfold whitespace_only in Blank.
    apply andb_true_iff in Blank as [_ Trimmed].
    rewrite submit_invalid
      by (cbn [passes_validation]; now rewrite Trimmed).
    repeat split.
  - rewrite andb_true_r in Filled.
    assert (V : passes_validation listing (state w) = true).
    { cbn [passes_validation]. rewrite negb_orb. exact Filled. }
    destruct (submit_accepted listing w V Up) as (Sent & Loading & NoError).
    auto.
  - rewrite andb_true_r in Filled.
    assert (V : passes_validation prediction (state w) = true).
    { cbn [passes_validation]. rewrite negb_orb. exact Filled. }
    destruct (submit_accepted prediction w V Up) as (Sent & Loading & NoError).
    auto.
Qed.

Lemma whitespace_validation_differs_witness :
  let w := run initial_world
             [ Mount;
               ProbeAnswered 0
                 (Responded {| status := 200; statusText := "OK"; body_text := "";
                               body_json := Some (VObj [("port", VNum 5000)]) |});
               TypeProductReviews "   ";
               EditListing {| productName := " "; category := ""; features := "x";
                              targetAudience := ""; brandTone := "Professional" |};
               EditPrediction {| modelOutput := "0.87"; inputFeatures := "  ";
                                 historicalContext := "" |} ] in
  (requests (submit analysis w) = [GetHealth]
   /\ error (state (submit analysis w))
      = Some "Provide product reviews to begin analysis."
   /\ isLoading (state (submit analysis w)) = false)
  /\ (requests (submit listing w)
      = [GetHealth;
         PostGenerateListing
           {| productName := " "; category := ""; features := "x";
              targetAudience := ""; brandTone := "Professional" |}]
      /\ error (state (submit listing w)) = None
      /\ isLoading (state (submit listing w)) = true)
  /\ (requests (submit prediction w)
      = [GetHealth;
         PostExplainPrediction
           {| modelOutput := "0.87"; inputFeatures := "  ";
              historicalContext := "" |}]
      /\ error (state (submit prediction w)) = None
      /\ isLoading (state (submit prediction w)) = true).
Proof.
  cbv zeta.
  match goal with
  | |- context [submit analysis ?w0] =>
      pose proof (whitespace_validation_differs analysis w0 eq_refl eq_refl) as A;
      pose proof (whitespace_validation_differs listing w0 eq_refl eq_refl) as L;
      pose proof (whitespace_validation_differs prediction w0 eq_refl eq_refl) as P
  end.
  cbv beta iota in A, L, P.
  split; [exact A |]. split; [exact L | exact P].
Defined.

(** ** Connection monitor *)

Section Monitor.

Lemma failed_probe_disconnects (net : FetchResult) :
  probe_fails net = true ->
  connected (checkBackendHealth net) = false
  /\ monitor_state (checkBackendHealth net) = Disconnected.
Proof.
  unfold probe_fails, monitor_state, checkBackendHealth.
  destruct (testBackendConnection net) as [v | e]; cbn [bind];
    [destruct (Js.get v "port"); cbn [bind] |]; cbn;
    intros; try discriminate; auto.
Qed.

Lemma mount_starts_probing :
  step initial_world Mount = probing 0 (backendHealth initial_state).
Proof. reflexivity. Qed.

Lemma probing_failure_schedules_retry (r : nat) (h : BackendHealth)
    (net : FetchResult) :
  r < 3 -> probe_fails net = true ->
  step (probing r h) (ProbeAnswered 0 net) = waiting r (checkBackendHealth net).
Proof.
  intros R F. apply failed_probe_disconnects in F as [F _].
  cbn [step probing probes nth_error]. unfold probe_answered.
  rewrite F. apply Nat.ltb_lt in R. rewrite R. reflexivity.
Qed.

Lemma probing_failure_at_bound (h : BackendHealth) (net : FetchResult) :
  probe_fails net = true ->
  step (probing 3 h) (ProbeAnswered 0 net) = gave_up (checkBackendHealth net).
Proof.
  intros F. apply failed_probe_disconnects in F as [F _].
  cbn [step probing probes nth_error]. unfold probe_answered.
  rewrite F. reflexivity.
Qed.

Lemma waiting_timer_probes_again (r : nat) (h : BackendHealth) :
  step (waiting r h) TimerFires = probing (S r) h.
Proof.
  cbn [step waiting timers]. unfold timer_fired, rerender.
  unfold probing, initializeBackend, send, await_probe, monitoring. cbn.
  replace (r + 1) with (S r) by lia.
  assert (E : (r =? S r)%nat = false) by (apply Nat.eqb_neq; lia).
  rewrite E. f_equal. f_equal. symmetry. apply repeat_cons.
Qed.

Lemma probing_ignores_timer (r : nat) (h : BackendHealth) :
  step (probing r h) TimerFires = probing r h.
Proof. reflexivity. Qed.

Lemma probing_ignores_other_answers (r i : nat) (h : BackendHealth)
    (net : FetchResult) :
  step (probing r h) (ProbeAnswered (S i) net) = probing r h.
Proof. cbn [step probing probes nth_error]. now destruct i. Qed.

Lemma waiting_ignores_answers (r i : nat) (h : BackendHealth) (net : FetchResult) :
  step (waiting r h) (ProbeAnswered i net) = waiting r h.
Proof. cbn [step waiting probes]. now destruct i. Qed.

Lemma gave_up_is_stable (h : BackendHealth) (e : Event) :
  automatic_failure e = true -> step (gave_up h) e = gave_up h.
Proof.
  destruct e; try discriminate; intros _.
  - reflexivity.
  - cbn [step gave_up probes]. now destruct i.
Qed.

Lemma watching_step (w : World) (e : Event) :
  Watching w -> automatic_failure e = true -> Watching (step w e).
Proof.
  intros W A. destruct e as [| | i net | | | | | | | |]; try discriminate.
  - (* a timer runs *)
    destruct W as [| r h R D | r h R D | h D].
    + rewrite probing_ignores_timer. constructor.
    + rewrite probing_ignores_timer. now constructor.
    + rewrite waiting_timer_probes_again. constructor; [lia | exact D].
    + rewrite gave_up_is_stable by reflexivity. now constructor.
  - (* a probe fails *)
    cbn [automatic_failure] in A.
    pose proof (failed_probe_disconnects net A) as [_ D'].
    destruct W as [| r h R D | r h R D | h D].
    + destruct i.
      * rewrite probing_failure_schedules_retry by (lia || assumption).
        constructor; [lia | exact D'].
      * rewrite probing_ignores_other_answers. constructor.
    + destruct i.
      * destruct (Nat.eq_dec r 3) as [-> | N].
        -- rewrite probing_failure_at_bound by assumption. now constructor.
        -- rewrite probing_failure_schedules_retry by (lia || assumption).
           constructor; [lia | exact D'].
      * rewrite probing_ignores_other_answers. now constructor.
    + rewrite waiting_ignores_answers. now constructor.
    + rewrite gave_up_is_stable by exact A. now constructor.
Qed.

Lemma watching_run (events : list Event) (w : World) :
  Watching w -> forallb automatic_failure events = true ->
  Watching (run w events).
Proof.
  revert w. induction events as [| e events IH]; intros w W A; [exact W |].
  cbn [forallb] in A. apply andb_true_iff in A as [A1 A2].
  unfold run. cbn [fold_left]. apply IH; [| exact A2].
  now apply watching_step.
Qed.

(** X11. Left to itself against a backend that never answers well, the
    monitor issues at most four probes, every timer it sets is of 3000
    ms, and once nothing is pending it has given up: disconnected, the
    counter at 3, four probes sent. *)
Lemma automatic_probing_bounded (events : list Event) :
  forallb automatic_failure events = true ->
  let w := run initial_world (Mount :: events) in
  List.length (requests w) <= 4
  /\ requests w = repeat GetHealth (List.length (requests w))
  /\ Forall (fun delay => delay = 3000%Z) (timers w)
  /\ (quiescent w = true ->
      monitor_state (backendHealth (state w)) = Disconnected
      /\ connectionRetries (state w) = 3
      /\ List.length (requests w) = 4).
Proof.
  intros A. cbv zeta.
  assert (W : Watching (run initial_world (Mount :: events))).
  { unfold run. cbn [fold_left]. rewrite mount_starts_probing.
    apply watching_run; [constructor | exact A]. }
  destruct W as [| r h R D | r h R D | h D];
    cbn [probing waiting gave_up requests timers probes state quiescent];
    rewrite ?repeat_length.
  - split; [lia |]. split; [reflexivity |]. split; [constructor | discriminate].
  - split; [lia |]. split; [reflexivity |]. split; [constructor | discriminate].
  - split; [lia |]. split; [reflexivity |].
    split; [repeat constructor | discriminate].
  - split; [lia |]. split; [reflexivity |]. split; [constructor |].
    intros _. repeat split. exact D.
Qed.

End Monitor.

(** C7, as stated, fails twice.  After three consecutive failed probes
    the monitor is disconnected but a retry timer is still running, and
    when it runs a fourth probe goes out.  And once the monitor has given
    up (after the fourth failure), a manual retry issues two probes, not
    one: its own, and the one of the effect that the reset of the counter
    runs again. *)
Lemma three_failures_leave_a_retry_scheduled :
  let down := Rejected "Failed to fetch" in
  let w3 := run initial_world (Mount :: failed_probes [down; down; down]) in
  let w4 := run initial_world (Mount :: failed_probes [down; down; down; down]) in
  requests w3 = [GetHealth; GetHealth; GetHealth]
  /\ probes w3 = []
  /\ monitor_state (backendHealth (state w3)) = Disconnected
  /\ timers w3 = [3000%Z]
  /\ requests (step w3 TimerFires) = [GetHealth; GetHealth; GetHealth; GetHealth]
  /\ quiescent w4 = true
  /\ connectionRetries (state w4) = 3
  /\ requests (step w4 ClickRetry) = (requests w4 ++ [GetHealth; GetHealth])%list.
Proof.
  cbv zeta. repeat split.
Qed.

(** C7, amended.  Starting from the initial checking state with no manual
    action, each of the first three failed probes leaves the monitor
    disconnected with one re-probe scheduled after a fixed 3000 ms; the
    bound is three re-probes, so it is after the fourth consecutive
    failed probe that the monitor is disconnected with no probe open and
    no timer running.  A manual retry invoked then resets the retry
    counter to 0 and issues two probes: one by the retry itself and one by
    the mount effect, which runs again because the counter changed. *)
Theorem monitor_gives_up_after_fourth_failure (n1 n2 n3 n4 : FetchResult) :
  probe_fails n1 = true -> probe_fails n2 = true ->
  probe_fails n3 = true -> probe_fails n4 = true ->
  let after k :=
    run initial_world (Mount :: failed_probes (firstn k [n1; n2; n3; n4])) in
  monitor_state (backendHealth (state initial_world)) = Checking
  /\ (forall k, 1 <= k <= 3 ->
        monitor_state (backendHealth (state (after k))) = Disconnected
        /\ requests (after k) = repeat GetHealth k
        /\ probes (after k) = []
        /\ timers (after k) = [3000%Z]
        /\ requests (step (after k) TimerFires) = repeat GetHealth (S k))
  /\ monitor_state (backendHealth (state (after 4))) = Disconnected
  /\ requests (after 4) = repeat GetHealth 4
  /\ probes (after 4) = []
  /\ timers (after 4) = []
  /\ connectionRetries (state (after 4)) = 3
  /\ connectionRetries (state (step (after 4) ClickRetry)) = 0
  /\ requests (step (after 4) ClickRetry)
     = (requests (after 4) ++ [GetHealth; GetHealth])%list
  /\ probes (step (after 4) ClickRetry) = [ByRefresh; ByEffect 0]
  /\ timers (step (after 4) ClickRetry) = [].
Proof.
  intros F1 F2 F3 F4. cbv zeta.
  pose proof (failed_probe_disconnects n1 F1) as [_ D1].
  pose proof (failed_probe_disconnects n2 F2) as [_ D2].
  pose proof (failed_probe_disconnects n3 F3) as [_ D3].
  pose proof (failed_probe_disconnects n4 F4) as [_ D4].
  assert (A1 : run initial_world (Mount :: failed_probes [n1])
               = waiting 0 (checkBackendHealth n1)).
  { unfold run. cbn [failed_probes fold_left].
    rewrite mount_starts_probing.
    now rewrite probing_failure_schedules_retry by (lia || assumption). }
  assert (A2 : run initial_world (Mount :: failed_probes [n1; n2])
               = waiting 1 (checkBackendHealth n2)).
  { unfold run. cbn [failed_probes fold_left].
    rewrite mount_starts_probing.
    rewrite probing_failure_schedules_retry by (lia || assumption).
    rewrite waiting_timer_probes_again.
    now rewrite probing_failure_schedules_retry by (lia || assumption). }
  assert (A3 : run initial_world (Mount :: failed_probes [n1; n2; n3])
               = waiting 2 (checkBackendHealth n3)).
  { unfold run. cbn [failed_probes fold_left].
    rewrite mount_starts_probing.
    rewrite probing_failure_schedules_retry by (lia || assumption).
    rewrite waiting_timer_probes_again.
    rewrite probing_failure_schedules_retry by (lia || assumption).
    rewrite waiting_timer_probes_again.
    now rewrite probing_failure_schedules_retry by (lia || assumption). }
  assert (A4 : run initial_world (Mount :: failed_probes [n1; n2; n3; n4])
               = gave_up (checkBackendHealth n4)).
  { unfold run. cbn [failed_probes fold_left].
    rewrite mount_starts_probing.
    rewrite probing_failure_schedules_retry by (lia || assumption).
    rewrite waiting_timer_probes_again.
    rewrite probing_failure_schedules_retry by (lia || assumption).
    rewrite waiting_timer_probes_again.
    rewrite probing_failure_schedules_retry by (lia || assumption).
    rewrite waiting_timer_probes_again.
    now rewrite probing_failure_at_bound by assumption. }
  split; [reflexivity |]. split.
  - intros k K.
    assert (C : k = 1 \/ k = 2 \/ k = 3) by lia.
    destruct C as [-> | [-> | ->]]; cbn [firstn];
      rewrite ?A1, ?A2, ?A3, waiting_timer_probes_again;
      repeat split; assumption.
  - cbn [firstn]. rewrite A4. repeat split. exact D4.
Qed.

Lemma monitor_gives_up_after_fourth_failure_witness :
  let down := Rejected "Failed to fetch" in
  let refused := Responded {| status := 503; statusText := "Service Unavailable";
                              body_text := ""; body_json := None |} in
  let w := run initial_world (Mount :: failed_probes [down; refused; down; refused]) in
  monitor_state (backendHealth (state w)) = Disconnected
  /\ requests w = [GetHealth; GetHealth; GetHealth; GetHealth]
  /\ probes w = []
  /\ timers w = []
  /\ connectionRetries (state w) = 3
  /\ requests (step w ClickRetry)
     = [GetHealth; GetHealth; GetHealth; GetHealth; GetHealth; GetHealth].
Proof.
  cbv zeta.
  pose proof (monitor_gives_up_after_fourth_failure
                (Rejected "Failed to fetch")
                (Responded {| status := 503; statusText := "Service Unavailable";
                              body_text := ""; body_json := None |})
                (Rejected "Failed to fetch")
                (Responded {| status := 503; statusText := "Service Unavailable";
                              body_text := ""; body_json := None |})
                eq_refl eq_refl eq_refl eq_refl)
    as (_ & _ & Down & Sent & Open & Timers & Counter & _ & Retry & _).
  cbv zeta in Down, Sent, Open, Timers, Counter, Retry.
  cbn [firstn] in Down, Sent, Open, Timers, Counter, Retry.
  split; [exact Down |]. split; [exact Sent |]. split; [exact Open |].
  split; [exact Timers |]. split; [exact Counter |].
  rewrite Retry. reflexivity.
Defined.

(* ================================================================== *)
(** * Further properties *)

(** ** Enum helpers on arbitrary values *)

Section EnumEdges.

Lemma toSentiment_member (v : value) (s : Sentiment.t) :
  toSentiment v = Return s -> Sentiment.member s = true.
Proof.
  unfold toSentiment. destruct (Js.toLowerCase _) as [lowered |]; cbn [bind];
    [| discriminate].
  destruct (_ || _ || _) eqn:M; intros [= <-]; [| reflexivity].
  unfold Sentiment.member, Sentiment.members, existsb.
  now rewrite orb_false_r, orb_assoc.
Qed.

Lemma toFrequency_member (v : value) (f : Frequency.t) :
  toFrequency v = Return f -> Frequency.member f = true.
Proof.
  unfold toFrequency. destruct (Js.toLowerCase _) as [lowered |]; cbn [bind];
    [| discriminate].
  destruct (_ || _ || _) eqn:M; intros [= <-]; [| reflexivity].
  unfold Frequency.member, Frequency.members, existsb.
  now rewrite orb_false_r, orb_assoc.
Qed.

Lemma toImpact_member (v : value) (i : ImpactLevel.t) :
  toImpact v = Return i -> ImpactLevel.member i = true.
Proof.
  unfold toImpact. destruct (Js.toLowerCase _) as [lowered |]; cbn [bind];
    [| discriminate].
  destruct (_ || _ || _) eqn:M; intros [= <-]; [| reflexivity].
  unfold ImpactLevel.member, ImpactLevel.members, existsb.
  now rewrite orb_false_r, orb_assoc.
Qed.

Lemma falsy_cases (v : value) :
  Js.truthy v = false ->
  v = VUndefined \/ v = VNull \/ v = VBool false \/ v = VNum 0 \/ v = VStr "".
Proof.
  destruct v as [| | b | n | s | |]; cbn; try discriminate; auto.
  - destruct b; [discriminate | auto].
  - intros Z0. apply negb_false_iff, Z.eqb_eq in Z0. subst. auto 6.
  - intros E. apply negb_false_iff, String.eqb_eq in E. subst. auto 6.
Qed.

End EnumEdges.

(** X1. The enum helpers on a value that is not a string.  Absent, null
    and every other falsy value give the default (neutral, medium,
    medium); a truthy value that is not a string (a number, [true], an
    array, an object) makes the helper throw a TypeError. *)
Theorem enum_helpers_on_non_strings (v : value) :
  (Js.truthy v = false ->
     toSentiment v = Return "neutral"
     /\ toFrequency v = Return "medium"
     /\ toImpact v = Return "medium")
  /\ (Js.truthy v = true -> Js.is_string v = false ->
        toSentiment v = Throw TypeError
        /\ toFrequency v = Throw TypeError
        /\ toImpact v = Throw TypeError).
Proof.
  split.
  - intros F.
    destruct (falsy_cases v F) as [-> | [-> | [-> | [-> | ->]]]];
      repeat split.
  - destruct v as [| | b | n | s | |]; cbn; try discriminate.
    + intros ->. repeat split.
    + unfold toSentiment, toFrequency, toImpact, Js.or. cbn.
      intros ->. repeat split.
    + repeat split.
    + repeat split.
Qed.

Lemma enum_helpers_on_non_strings_witness :
  (toSentiment VNull = Return "neutral"
   /\ toFrequency VNull = Return "medium"
   /\ toImpact VNull = Return "medium")
  /\ (toSentiment (VNum 3) = Throw TypeError
      /\ toFrequency (VNum 3) = Throw TypeError
      /\ toImpact (VNum 3) = Throw TypeError).
Proof.
  split.
  - apply (proj1 (enum_helpers_on_non_strings VNull)). reflexivity.
  - apply (proj2 (enum_helpers_on_non_strings (VNum 3))); reflexivity.
Defined.

(** X2. Whatever an enum helper returns, for any value at all, is a
    member of its enum: positive, neutral or negative; low, medium or
    high. *)
Theorem enum_helpers_return_members (v : value) :
  (forall s, toSentiment v = Return s -> In s ["positive"; "neutral"; "negative"])
  /\ (forall f, toFrequency v = Return f -> In f ["low"; "medium"; "high"])
  /\ (forall i, toImpact v = Return i -> In i ["low"; "medium"; "high"]).
Proof.
  repeat split; intros x R.
  - apply toSentiment_member, member_cases in R as [-> | [-> | ->]]; cbn; auto.
  - apply toFrequency_member, member_cases in R as [-> | [-> | ->]]; cbn; auto.
  - apply toImpact_member, member_cases in R as [-> | [-> | ->]]; cbn; auto.
Qed.

Lemma enum_helpers_return_members_witness :
  In "negative" ["positive"; "neutral"; "negative"]
  /\ In "medium" ["low"; "medium"; "high"]
  /\ In "high" ["low"; "medium"; "high"].
Proof.
  destruct (enum_helpers_return_members (VStr " Negative ")) as (S & _ & _).
  destruct (enum_helpers_return_members (VBool false)) as (_ & F & _).
  destruct (enum_helpers_return_members (VStr "HIGH")) as (_ & _ & I).
  split; [apply S; reflexivity |]. split; [apply F | apply I]; reflexivity.
Defined.

(** ** Enum helpers and surrounding white space *)

Section Padding.

Lemma toLowerCase_keeps_whitespace (c : ascii) :
  JsString.is_whitespace (JsString.toLowerCase_char c) = JsString.is_whitespace c.
Proof.
  destruct c as [[] [] [] [] [] [] [] []]; reflexivity.
Qed.

Lemma toLowerCase_app (a b : string) :
  JsString.toLowerCase (a ++ b)
  = JsString.toLowerCase a ++ JsString.toLowerCase b.
Proof.
  induction a as [| c a IH]; cbn; [reflexivity | now rewrite IH].
Qed.

Lemma toLowerCase_all_whitespace (s : string) :
  all_whitespace (JsString.toLowerCase s) = all_whitespace s.
Proof.
  induction s as [| c s IH]; cbn; [reflexivity |].
  now rewrite toLowerCase_keeps_whitespace, IH.
Qed.

Lemma trimStart_all_whitespace (s : string) :
  all_whitespace s = true -> JsString.trimStart s = "".
Proof.
  induction s as [| c s IH]; cbn; [reflexivity |].
  intros W. apply andb_true_iff in W as [C W]. rewrite C. now apply IH.
Qed.

Lemma trimEnd_all_whitespace (s : string) :
  all_whitespace s = true -> JsString.trimEnd s = "".
Proof.
  induction s as [| c s IH]; cbn; [reflexivity |].
  intros W. apply andb_true_iff in W as [C W]. now rewrite (IH W), C.
Qed.

Lemma trimStart_padded (pre s : string) :
  all_whitespace pre = true ->
  JsString.trimStart (pre ++ s) = JsString.trimStart s.
Proof.
  induction pre as [| c pre IH]; cbn; [reflexivity |].
  intros W. apply andb_true_iff in W as [C W]. rewrite C. now apply IH.
Qed.

Lemma trimEnd_padded (s post : string) :
  all_whitespace post = true ->
  JsString.trimEnd (s ++ post) = JsString.trimEnd s.
Proof.
  intros W. induction s as [| c s IH]; cbn.
  - now apply trimEnd_all_whitespace.
  - now rewrite IH.
Qed.

Lemma trim_padded (pre s post : string) :
  all_whitespace pre = true -> all_whitespace post = true ->
  JsString.trim (pre ++ s ++ post) = JsString.trim s.
Proof.
  intros Wpre Wpost. unfold JsString.trim.
  rewrite (trimStart_padded pre _ Wpre).
  induction s as [| c s IH]; cbn.
  - now rewrite (trimStart_all_whitespace post Wpost).
  - destruct (JsString.is_whitespace c); [exact IH |].
    change (String c (s ++ post)) with (String c s ++ post).
    now apply trimEnd_padded.
Qed.

Lemma normalized_padded (pre s post : string) :
  all_whitespace pre = true -> all_whitespace post = true ->
  JsString.trim (JsString.toLowerCase (pre ++ s ++ post))
  = JsString.trim (JsString.toLowerCase s).
Proof.
  intros Wpre Wpost. rewrite !toLowerCase_app.
  apply trim_padded; now rewrite toLowerCase_all_whitespace.
Qed.

End Padding.

(** X3. White space around a raw enum string does not matter: a string
    and the same string with any white space (spaces, tabs, line breaks,
    no-break spaces) before and after it are normalised to the same
    sentiment, frequency and impact level. *)
Theorem enum_helpers_ignore_padding (pre raw post : string) :
  all_whitespace pre = true -> all_whitespace post = true ->
  toSentiment (VStr (pre ++ raw ++ post)) = toSentiment (VStr raw)
  /\ toFrequency (VStr (pre ++ raw ++ post)) = toFrequency (VStr raw)
  /\ toImpact (VStr (pre ++ raw ++ post)) = toImpact (VStr raw).
Proof.
  intros Wpre Wpost.
  pose proof (normalized_padded pre raw post Wpre Wpost) as N.
  split; [| split].
  - rewrite !toSentiment_string. cbv zeta. now rewrite N.
  - rewrite !toFrequency_string. cbv zeta. now rewrite N.
  - rewrite !toImpact_string. cbv zeta. now rewrite N.
Qed.

Lemma enum_helpers_ignore_padding_witness :
  toSentiment (VStr ("  " ++ "Negative" ++ " ")) = toSentiment (VStr "Negative")
  /\ toFrequency (VStr ("  " ++ "Negative" ++ " ")) = toFrequency (VStr "Negative")
  /\ toImpact (VStr ("  " ++ "Negative" ++ " ")) = toImpact (VStr "Negative").
Proof.
  apply (enum_helpers_ignore_padding "  " "Negative" " "); reflexivity.
Defined.

(** ** What every result of a service call looks like *)

Section WellFormed.

Lemma map_outcome_Forall2 {A B : Type} (f : A -> outcome B) (l : list A)
    (ys : list B) :
  map_outcome f l = Return ys -> Forall2 (fun x y => f x = Return y) l ys.
Proof.
  revert ys. induction l as [| x l IH]; cbn; intros ys.
  - intros [= <-]. constructor.
  - destruct (f x) as [y |] eqn:Fx; cbn [bind]; [| discriminate].
    destruct (map_outcome f l) as [rest |]; cbn [bind]; [| discriminate].
    intros [= <-]. constructor; [exact Fx | now apply IH].
Qed.

Lemma map_Forall2 {B : Type} (v : value) (f : value -> outcome B) (ys : list B) :
  Js.map v f = Return ys ->
  exists l, v = VArr l /\ Forall2 (fun x y => f x = Return y) l ys.
Proof.
  destruct v; cbn; try discriminate.
  intros M. eexists; split; [reflexivity | now apply map_outcome_Forall2].
Qed.

Lemma Forall2_right {A B : Type} (R : A -> B -> Prop) (P : B -> Prop)
    (l : list A) (ys : list B) :
  (forall x y, R x y -> P y) -> Forall2 R l ys -> Forall P ys.
Proof.
  intros H F. induction F; constructor; eauto.
Qed.

Lemma map_Forall {B : Type} (v : value) (f : value -> outcome B) (ys : list B)
    (P : B -> Prop) :
  (forall x y, f x = Return y -> P y) -> Js.map v f = Return ys -> Forall P ys.
Proof.
  intros H M. apply map_Forall2 in M as (l & _ & F).
  now apply (Forall2_right _ P l ys H).
Qed.

Lemma truthy_or_default (v d : value) :
  Js.truthy d = true -> Js.truthy (v ||| d) = true.
Proof.
  intros D. unfold Js.or. now destruct (Js.truthy v) eqn:T.
Qed.

Lemma convert_pain_point_well_formed (x : value) (p : PainPoint) :
  convert_pain_point x = Return p -> pain_point_well_formed p.
Proof.
  unfold convert_pain_point.
  destruct (Js.get x "issue"); cbn [bind]; [| discriminate].
  destruct (Js.get x "frequency_estimate"); cbn [bind]; [| discriminate].
  destruct (toFrequency _) as [f |] eqn:F; cbn [bind]; [| discriminate].
  destruct (Js.get x "example_review_excerpt"); cbn [bind]; [| discriminate].
  intros [= <-]. repeat split; cbn.
  - now apply toFrequency_member in F.
  - now apply truthy_or_default.
  - now apply truthy_or_default.
Qed.

Lemma convert_positive_feature_well_formed (x : value) (p : PositiveFeature) :
  convert_positive_feature x = Return p -> positive_feature_well_formed p.
Proof.
  unfold convert_positive_feature.
  destruct (Js.get x "feature"); cbn [bind]; [| discriminate].
  destruct (Js.get x "frequency_estimate"); cbn [bind]; [| discriminate].
  destruct (toFrequency _) as [f |] eqn:F; cbn [bind]; [| discriminate].
  destruct (Js.get x "example_review_excerpt"); cbn [bind]; [| discriminate].
  intros [= <-]. repeat split; cbn.
  - now apply toFrequency_member in F.
  - now apply truthy_or_default.
  - now apply truthy_or_default.
Qed.


Lemma convert_factor_well_formed (x : value) (f : PredictionFactor) :
  convert_factor x = Return f -> factor_well_formed f.
Proof.
  unfold convert_factor.
  destruct (Js.get x "factor"); cbn [bind]; [| discriminate].
  destruct (Js.get x "impact"); cbn [bind]; [| discriminate].
  destruct (toImpact _) as [i |] eqn:I; cbn [bind]; [| discriminate].
  intros [= <-]. split; cbn.
  - now apply toImpact_member in I.
  - now apply truthy_or_default.
Qed.

(** A result of a service call is the fallback or a normalised body. *)
Lemma analyzeReviews_cases (productReviews competitorReviews : string)
    (net : FetchResult) (res : ReviewAnalysisResponse) :
  analyzeReviews productReviews competitorReviews net = Return res ->
  res = analyzeReviews_fallback
  \/ exists raw, normalizeReviewAnalysis raw = Return res.
Proof.
  unfold analyzeReviews, json.
  destruct net as [reason | r]; cbn [fetch bind try_catch].
  - intros [= <-]. now left.
  - destruct (ok r); cbn [negb try_catch]; [| intros [= <-]; now left].
    destruct (body_json r) as [raw |]; cbn [bind try_catch];
      [| intros [= <-]; now left].
    destruct (normalizeReviewAnalysis raw) as [n |] eqn:N; cbn [try_catch];
      intros [= <-]; [right; eauto | now left].
Qed.

Lemma explainPrediction_cases (input : PredictionInput) (net : FetchResult)
    (res : PredictionExplanationResponse) :
  explainPrediction input net = Return res ->
  res = explainPrediction_fallback
  \/ exists raw, normalizePrediction raw = Return res.
Proof.
  unfold explainPrediction, json.
  destruct net as [reason | r]; cbn [fetch bind try_catch].
  - intros [= <-]. now left.
  - destruct (ok r); cbn [negb try_catch]; [| intros [= <-]; now left].
    destruct (body_json r) as [raw |]; cbn [bind try_catch];
      [| intros [= <-]; now left].
    destruct (normalizePrediction raw) as [n |] eqn:N; cbn [try_catch];
      intros [= <-]; [right; eauto | now left].
Qed.

Lemma normalizePrediction_summary (raw : value)
    (res : PredictionExplanationResponse) :
  normalizePrediction raw = Return res ->
  prediction_summary res
  = field raw "prediction_summary"
    ||| VStr "Model analysis suggests favorable market conditions.".
Proof.
  unfold normalizePrediction, field.
  destruct raw; cbn [Js.get bind]; try discriminate;
    (destruct (Js.map _ convert_factor); cbn [bind]; [| discriminate];
     destruct (toImpact _); cbn [bind]; [| discriminate];
     intros [= <-]; reflexivity).
Qed.

End WellFormed.



(** X5. Whatever the network does, the result that [explainPrediction]
    hands to its caller has an impact-level member (low, medium, high) as
    [confidence_level] and as the impact of every factor, and no missing
    or empty text: the summary, every factor name and the recommended
    actions are truthy. *)
Theorem prediction_result_well_formed (input : PredictionInput)
    (net : FetchResult) (res : PredictionExplanationResponse) :
  explainPrediction input net = Return res ->
  ImpactLevel.member (confidence_level res) = true
  /\ Forall factor_well_formed (key_factors res)
  /\ Js.truthy (prediction_summary res) = true
  /\ Js.truthy (recommended_actions res) = true.
Proof.
  intros R. apply explainPrediction_cases in R as [-> | [raw N]].
  - split; [reflexivity |]. repeat split; repeat constructor.
  - destruct (normalizePrediction_fields raw res N) as (Factors & Actions & Confidence).
    split; [now apply toImpact_member in Confidence |].
    split; [exact (map_Forall _ _ _ _ convert_factor_well_formed Factors) |].
    split.
    + rewrite (normalizePrediction_summary raw res N).
      now apply truthy_or_default.
    + rewrite Actions. now apply truthy_or_default.
Qed.

Lemma prediction_result_well_formed_witness :
  exists res,
    explainPrediction (predInput initial_state)
      (Responded
         {| status := 200; statusText := "OK"; body_text := "";
            body_json :=
              Some (VObj [("confidence_level", VStr "Very High");
                          ("key_factors",
                           VArr [VObj [("impact", VStr " LOW ")]; VNum 7])]) |})
    = Return res
    /\ ImpactLevel.member (confidence_level res) = true
    /\ Forall factor_well_formed (key_factors res).
Proof.
  eexists. split; [reflexivity |].
  match goal with
  | |- context [confidence_level ?r] =>
      pose proof (prediction_result_well_formed (predInput initial_state)
        (Responded
           {| status := 200; statusText := "OK"; body_text := "";
              body_json :=
                Some (VObj [("confidence_level", VStr "Very High");
                            ("key_factors",
                             VArr [VObj [("impact", VStr " LOW ")]; VNum 7])]) |})
        r eq_refl) as (C & F & _)
  end.
  split; [exact C | exact F].
Defined.

(** ** Converted sequences keep their entries in place *)

Section InPlace.

Lemma Forall2_positions {A B : Type} (R : A -> B -> Prop) (l : list A)
    (ys : list B) :
  Forall2 R l ys ->
  List.length ys = List.length l
  /\ forall i x, nth_error l i = Some x ->
       exists y, nth_error ys i = Some y /\ R x y.
Proof.
  induction 1 as [| x y l ys Rxy F [Len Pos]]; cbn.
  - split; [reflexivity |]. intros [| i] x; discriminate.
  - split; [now rewrite Len |].
    intros [| i] x'; cbn.
    + intros [= <-]. eauto.
    + apply Pos.
Qed.

Lemma convert_pain_point_fields (x : value) (p : PainPoint) :
  convert_pain_point x = Return p ->
  issue p = field x "issue" ||| VStr "Unknown issue"
  /\ toFrequency (field x "frequency_estimate") = Return (pp_frequency_estimate p)
  /\ pp_example_review_excerpt p
     = field x "example_review_excerpt" ||| VStr "No example provided".
Proof.
  unfold convert_pain_point, field.
  destruct x; cbn [Js.get bind]; try discriminate;
    (destruct (toFrequency _); cbn [bind]; [| discriminate];
     intros [= <-]; repeat split).
Qed.

Lemma convert_positive_feature_fields (x : value) (p : PositiveFeature) :
  convert_positive_feature x = Return p ->
  feature p = field x "feature" ||| VStr "Unknown feature"
  /\ toFrequency (field x "frequency_estimate") = Return (pf_frequency_estimate p)
  /\ pf_example_review_excerpt p
     = field x "example_review_excerpt" ||| VStr "No example provided".
Proof.
  unfold convert_positive_feature, field.
  destruct x; cbn [Js.get bind]; try discriminate;
    (destruct (toFrequency _); cbn [bind]; [| discriminate];
     intros [= <-]; repeat split).
Qed.

Lemma convert_competitive_gap_fields (x : value) (g : CompetitiveGap) :
  convert_competitive_gap x = Return g ->
  gap g = field x "gap" ||| VStr "Unknown gap"
  /\ competitor_advantage g
     = field x "competitor_advantage" ||| VStr "Unknown advantage".
Proof.
  unfold convert_competitive_gap, field.
  destruct x; cbn [Js.get bind]; try discriminate;
    (intros [= <-]; repeat split).
Qed.

Lemma mapped_positions {B : Type} (v : value) (f : value -> outcome B)
    (ys : list B) (l : list value) :
  Js.map (v ||| VArr []) f = Return ys -> v = VArr l ->
  List.length ys = List.length l
  /\ forall i x, nth_error l i = Some x ->
       exists y, nth_error ys i = Some y /\ f x = Return y.
Proof.
  intros M ->. cbn in M. apply map_outcome_Forall2 in M.
  now apply Forall2_positions.
Qed.

End InPlace.

(** X6. The review-analysis normalisation keeps the converted sequences
    entry by entry: when the body carries an array of pain points,
    positive features or competitive gaps, the result has as many
    entries, in the same order, and the entry at each position is made
    from the raw entry at that position (its texts where they are
    truthy, else the placeholder of the field; its frequency
    normalised). *)
Theorem converted_sequences_keep_positions (raw : value)
    (res : ReviewAnalysisResponse) :
  normalizeReviewAnalysis raw = Return res ->
  (forall l, field raw "top_pain_points" = VArr l ->
     List.length (top_pain_points res) = List.length l
     /\ forall i x, nth_error l i = Some x ->
          exists p, nth_error (top_pain_points res) i = Some p
            /\ issue p = field x "issue" ||| VStr "Unknown issue"
            /\ toFrequency (field x "frequency_estimate")
               = Return (pp_frequency_estimate p)
            /\ pp_example_review_excerpt p
               = field x "example_review_excerpt" ||| VStr "No example provided")
  /\ (forall l, field raw "top_positive_features" = VArr l ->
        List.length (top_positive_features res) = List.length l
        /\ forall i x, nth_error l i = Some x ->
             exists p, nth_error (top_positive_features res) i = Some p
               /\ feature p = field x "feature" ||| VStr "Unknown feature"
               /\ toFrequency (field x "frequency_estimate")
                  = Return (pf_frequency_estimate p)
               /\ pf_example_review_excerpt p
                  = field x "example_review_excerpt"
                    ||| VStr "No example provided")
  /\ (forall l, field raw "competitive_gaps" = VArr l ->
        List.length (competitive_gaps res) = List.length l
        /\ forall i x, nth_error l i = Some x ->
             exists g, nth_error (competitive_gaps res) i = Some g
               /\ gap g = field x "gap" ||| VStr "Unknown gap"
               /\ competitor_advantage g
                  = field x "competitor_advantage" ||| VStr "Unknown advantage").
Proof.
  intros N.
  destruct (normalizeReviewAnalysis_fields raw res N)
    as (_ & Pain & Positive & Gaps & _).
  split; [| split]; intros l Raw.
  - destruct (mapped_positions _ _ _ l Pain Raw) as [Len Pos].
    split; [exact Len |]. intros i x Hx.
    destruct (Pos i x Hx) as (p & Hp & C).
    exists p. split; [exact Hp | now apply convert_pain_point_fields].
  - destruct (mapped_positions _ _ _ l Positive Raw) as [Len Pos].
    split; [exact Len |]. intros i x Hx.
    destruct (Pos i x Hx) as (p & Hp & C).
    exists p. split; [exact Hp | now apply convert_positive_feature_fields].
  - destruct (mapped_positions _ _ _ l Gaps Raw) as [Len Pos].
    split; [exact Len |]. intros i x Hx.
    destruct (Pos i x Hx) as (g & Hg & C).
    exists g. split; [exact Hg | now apply convert_competitive_gap_fields].
Qed.

Lemma converted_sequences_keep_positions_witness :
  exists res p,
    normalizeReviewAnalysis
      (VObj [("top_pain_points",
              VArr [VObj [("issue", VStr "Slow shipping")];
                    VObj [("issue", VStr "Weak packaging");
                          ("frequency_estimate", VStr "LOW")]])])
    = Return res
    /\ List.length (top_pain_points res) = 2
    /\ nth_error (top_pain_points res) 1 = Some p
    /\ issue p = VStr "Weak packaging"
    /\ pp_frequency_estimate p = "low".
Proof.
  eexists.
  match goal with
  | |- exists p, normalizeReviewAnalysis ?raw = Return ?r /\ _ =>
      assert (N : normalizeReviewAnalysis raw = Return r) by reflexivity;
      destruct (converted_sequences_keep_positions raw r N) as (Pain & _ & _);
      destruct (Pain _ eq_refl) as (Len & Pos);
      destruct (Pos 1 _ eq_refl) as (p & Hp & I & F & _)
  end.
  exists p. split; [exact N |]. split; [exact Len |]. split; [exact Hp |].
  split; [exact I |]. cbn in F. now injection F.
Defined.

(** ** Success responses whose body is not what was asked for *)

Section OddBodies.

Lemma explainPrediction_on_success (input : PredictionInput) (r : Response)
    (raw : value) :
  ok r = true -> body_json r = Some raw ->
  explainPrediction input (Responded r)
  = try_catch (normalizePrediction raw)
              (fun _ => Return explainPrediction_fallback).
Proof.
  intros Hok Hbody. unfold explainPrediction, json.
  cbn [fetch bind]. rewrite Hok, Hbody. reflexivity.
Qed.

Lemma generateListing_on_success (input : ListingInput) (r : Response)
    (raw : value) :
  ok r = true -> body_json r = Some raw ->
  generateListing input (Responded r)
  = try_catch (normalizeListing input raw)
              (fun _ => Return (generateListing_fallback input)).
Proof.
  intros Hok Hbody. unfold generateListing, json.
  cbn [fetch bind]. rewrite Hok, Hbody. reflexivity.
Qed.

Lemma returns_convert_factor (v : value) :
  returns (convert_factor v) = entry_with_impact v.
Proof.
  unfold convert_factor, entry_with_impact, field.
  destruct v; cbn [Js.get bind entry_present andb]; try reflexivity;
    rewrite <- returns_toImpact; destruct (toImpact _); reflexivity.
Qed.

Lemma returns_normalizePrediction (props : list (string * value)) :
  returns (normalizePrediction (VObj props))
  = prediction_fields_expected (VObj props).
Proof.
  unfold normalizePrediction, prediction_fields_expected, field.
  cbn [Js.get bind].
  assert (F : forall v, falsy_or (array_of entry_with_impact) v
                        = returns (Js.map (v ||| VArr []) convert_factor)).
  { intros v. rewrite returns_map_or_empty. unfold falsy_or, array_of.
    destruct v; try reflexivity. f_equal.
    apply forallb_pointwise. intros x. now rewrite returns_convert_factor. }
  rewrite F.
  destruct (Js.map _ convert_factor); cbn [bind returns andb]; [| reflexivity].
  rewrite <- returns_toImpact. destruct (toImpact _); reflexivity.
Qed.

Lemma not_returns {A : Type} (o : outcome A) (fallback : A) :
  returns o = false -> try_catch o (fun _ => Return fallback) = Return fallback.
Proof. destruct o; [discriminate | reflexivity]. Qed.

Lemma does_return {A : Type} (o : outcome A) (fallback : A) :
  returns o = true -> try_catch o (fun _ => Return fallback) = o.
Proof. destruct o; [reflexivity | discriminate]. Qed.

End OddBodies.

(** X7. [analyzeReviews] on a 2xx response with a JSON body.  The body
    [null] gives the fallback.  A body that is an object gives the
    fallback too as soon as one of the four converted fields has a type
    the conversion cannot work on, exactly as if the network had failed;
    otherwise it gives the normalised body.  A body that is a bare
    number, string, boolean or array is accepted and gives the result in
    which every field has its default. *)
Theorem analysis_of_any_success_body (productReviews competitorReviews : string)
    (r : Response) (raw : value) :
  ok r = true -> body_json r = Some raw ->
  let result := analyzeReviews productReviews competitorReviews (Responded r) in
  (raw = VNull -> result = Return analyzeReviews_fallback)
  /\ (bare raw = true -> result = Return all_default_analysis)
  /\ (forall props, raw = VObj props ->
        (converted_fields_expected raw = false ->
           result = Return analyzeReviews_fallback)
        /\ (converted_fields_expected raw = true ->
              result = normalizeReviewAnalysis raw
              /\ returns (normalizeReviewAnalysis raw) = true)).
Proof.
  intros Hok Hbody. cbv zeta.
  rewrite (analyzeReviews_on_success _ _ r raw Hok Hbody).
  split; [| split].
  - now intros ->.
  - destruct raw; try discriminate; reflexivity.
  - intros props ->.
    pose proof (returns_normalizeReviewAnalysis props) as R.
    change (returns (normalizeReviewAnalysis (VObj props))
            = converted_fields_expected (VObj props)) in R.
    split; intros E; rewrite E in R.
    + now apply not_returns.
    + split; [now apply does_return | exact R].
Qed.

Lemma analysis_of_any_success_body_witness :
  let reply body := Responded {| status := 201; statusText := "Created";
                                 body_text := ""; body_json := Some body |} in
  analyzeReviews "Great product" "" (reply VNull) = Return analyzeReviews_fallback
  /\ analyzeReviews "Great product" "" (reply (VNum 42))
     = Return all_default_analysis
  /\ analyzeReviews "Great product" ""
       (reply (VObj [("overall_sentiment", VStr "negative");
                     ("competitive_gaps", VObj [])]))
     = Return analyzeReviews_fallback.
Proof.
  cbv zeta. split; [| split].
  - apply (analysis_of_any_success_body "Great product" ""
             {| status := 201; statusText := "Created"; body_text := "";
                body_json := Some VNull |} VNull); reflexivity.
  - apply (analysis_of_any_success_body "Great product" ""
             {| status := 201; statusText := "Created"; body_text := "";
                body_json := Some (VNum 42) |} (VNum 42)); reflexivity.
  - eapply (analysis_of_any_success_body "Great product" ""
              {| status := 201; statusText := "Created"; body_text := "";
                 body_json := Some (VObj [("overall_sentiment", VStr "negative");
                                          ("competitive_gaps", VObj [])]) |});
      reflexivity.
Defined.

(** X8. [explainPrediction] on a 2xx response with a JSON body.  The
    body [null] gives the fallback; an object gives the fallback as soon
    as [key_factors] is present without being an array of non-null
    entries with string (or missing) impacts, or [confidence_level] is
    present without being a string, and otherwise the normalised body; a
    bare number, string, boolean or array gives the all-default result. *)
Theorem prediction_of_any_success_body (input : PredictionInput)
    (r : Response) (raw : value) :
  ok r = true -> body_json r = Some raw ->
  let result := explainPrediction input (Responded r) in
  (raw = VNull -> result = Return explainPrediction_fallback)
  /\ (bare raw = true -> result = Return all_default_prediction)
  /\ (forall props, raw = VObj props ->
        (prediction_fields_expected raw = false ->
           result = Return explainPrediction_fallback)
        /\ (prediction_fields_expected raw = true ->
              result = normalizePrediction raw
              /\ returns (normalizePrediction raw) = true)).
Proof.
  intros Hok Hbody. cbv zeta.
  rewrite (explainPrediction_on_success _ r raw Hok Hbody).
  split; [| split].
  - now intros ->.
  - destruct raw; try discriminate; reflexivity.
  - intros props ->.
    pose proof (returns_normalizePrediction props) as R.
    split; intros E; rewrite E in R.
    + now apply not_returns.
    + split; [now apply does_return | exact R].
Qed.

Lemma prediction_of_any_success_body_witness :
  let reply body := Responded {| status := 200; statusText := "OK";
                                 body_text := ""; body_json := Some body |} in
  explainPrediction (predInput initial_state) (reply VNull)
  = Return explainPrediction_fallback
  /\ explainPrediction (predInput initial_state) (reply (VStr "fine"))
     = Return all_default_prediction
  /\ explainPrediction (predInput initial_state)
       (reply (VObj [("confidence_level", VNum 9)]))
     = Return explainPrediction_fallback.
Proof.
  cbv zeta. split; [| split].
  - apply (prediction_of_any_success_body (predInput initial_state)
             {| status := 200; statusText := "OK"; body_text := "";
                body_json := Some VNull |} VNull); reflexivity.
  - apply (prediction_of_any_success_body (predInput initial_state)
             {| status := 200; statusText := "OK"; body_text := "";
                body_json := Some (VStr "fine") |} (VStr "fine")); reflexivity.
  - eapply (prediction_of_any_success_body (predInput initial_state)
              {| status := 200; statusText := "OK"; body_text := "";
                 body_json := Some (VObj [("confidence_level", VNum 9)]) |});
      reflexivity.
Defined.

(** X9. [generateListing] on a 2xx response with a JSON body.  Only the
    body [null] gives the fallback.  Every other body is accepted
    whatever its fields hold: each of the five fields of the result is
    the body's field when that is truthy, of whatever type, and the
    default built from the listing input otherwise. *)
Theorem listing_of_any_success_body (input : ListingInput)
    (r : Response) (raw : value) :
  ok r = true -> body_json r = Some raw ->
  (raw = VNull ->
     generateListing input (Responded r) = Return (generateListing_fallback input))
  /\ (raw <> VNull -> raw <> VUndefined ->
        generateListing input (Responded r)
        = Return
            {| product_title_variants :=
                 field raw "product_title_variants"
                 ||| default_product_title_variants input;
               bullet_point_variants :=
                 field raw "bullet_point_variants"
                 ||| default_bullet_point_variants;
               full_description_variants :=
                 field raw "full_description_variants"
                 ||| default_full_description_variants input;
               primary_keywords :=
                 field raw "primary_keywords" ||| default_primary_keywords input;
               secondary_keywords :=
                 field raw "secondary_keywords" ||| default_secondary_keywords |}).
Proof.
  intros Hok Hbody.
  rewrite (generateListing_on_success input r raw Hok Hbody).
  split.
  - now intros ->.
  - intros N U. destruct raw; try contradiction; reflexivity.
Qed.

Lemma listing_of_any_success_body_witness :
  let input := {| productName := "Lamp"; category := "Home"; features := "dimmable";
                  targetAudience := "readers"; brandTone := "Professional" |} in
  let reply body := Responded {| status := 200; statusText := "OK";
                                 body_text := ""; body_json := Some body |} in
  generateListing input (reply VNull) = Return (generateListing_fallback input)
  /\ exists res,
       generateListing input
         (reply (VObj [("product_title_variants", VNum 3)])) = Return res
       /\ product_title_variants res = VNum 3
       /\ secondary_keywords res = default_secondary_keywords.
Proof.
  cbv zeta. split.
  - apply (listing_of_any_success_body _
             {| status := 200; statusText := "OK"; body_text := "";
                body_json := Some VNull |} VNull); reflexivity.
  - eexists. split.
    + apply (listing_of_any_success_body _
               {| status := 200; statusText := "OK"; body_text := "";
                  body_json := Some (VObj [("product_title_variants", VNum 3)]) |}
               (VObj [("product_title_variants", VNum 3)]));
        [reflexivity | reflexivity | discriminate | discriminate].
    + split; reflexivity.
Defined.

(** ** Health check *)

Section HealthCheck.

Lemma checkBackendHealth_rejected (reason : string) :
  checkBackendHealth (Rejected reason)
  = {| connected := false;
       message := NotConnectedMessage (FetchFailed reason);
       details := Some (inr (FetchFailed reason)) |}.
Proof. reflexivity. Qed.

Lemma checkBackendHealth_bad_status (r : Response) :
  ok r = false ->
  let e := Error ("Backend error: " ++ JsString.of_Z (status r)
                  ++ " " ++ statusText r) in
  checkBackendHealth (Responded r)
  = {| connected := false; message := NotConnectedMessage e;
       details := Some (inr e) |}.
Proof.
  intros Hok. unfold checkBackendHealth, testBackendConnection.
  cbn [fetch bind]. now rewrite Hok.
Qed.

Lemma checkBackendHealth_not_json (r : Response) :
  ok r = true -> body_json r = None ->
  checkBackendHealth (Responded r)
  = {| connected := false; message := NotConnectedMessage BodyNotJSON;
       details := Some (inr BodyNotJSON) |}.
Proof.
  intros Hok Hbody. unfold checkBackendHealth, testBackendConnection, json.
  cbn [fetch bind]. now rewrite Hok, Hbody.
Qed.

Lemma checkBackendHealth_null (r : Response) (raw : value) :
  ok r = true -> body_json r = Some raw -> entry_present raw = false ->
  checkBackendHealth (Responded r)
  = {| connected := false; message := NotConnectedMessage TypeError;
       details := Some (inr TypeError) |}.
Proof.
  intros Hok Hbody P. unfold checkBackendHealth, testBackendConnection, json.
  cbn [fetch bind]. rewrite Hok, Hbody.
  destruct raw; try discriminate; reflexivity.
Qed.

Lemma checkBackendHealth_json (r : Response) (raw : value) :
  ok r = true -> body_json r = Some raw -> entry_present raw = true ->
  checkBackendHealth (Responded r)
  = {| connected := true; message := ConnectedMessage (field raw "port");
       details := Some (inl raw) |}.
Proof.
  intros Hok Hbody P. unfold checkBackendHealth, testBackendConnection, json.
  cbn [fetch bind]. rewrite Hok, Hbody.
  destruct raw; try discriminate; reflexivity.
Qed.

End HealthCheck.

(** X10. [checkBackendHealth] reports connected exactly when the probe
    got a 2xx response whose body is JSON other than [null]; the message
    then carries the body's [port], present or not.  In every other case
    it reports not connected and carries the error: the rejected fetch,
    "Backend error: <status> <statusText>" for a status outside 2xx, the
    parse failure, or the TypeError of reading [port] off [null]. *)
Theorem health_check_outcome :
  (forall net,
     connected (checkBackendHealth net) = true <->
     exists r raw, net = Responded r /\ ok r = true
                   /\ body_json r = Some raw /\ entry_present raw = true)
  /\ (forall r raw,
        ok r = true -> body_json r = Some raw -> entry_present raw = true ->
        checkBackendHealth (Responded r)
        = {| connected := true; message := ConnectedMessage (field raw "port");
             details := Some (inl raw) |})
  /\ (forall reason,
        checkBackendHealth (Rejected reason)
        = {| connected := false;
             message := NotConnectedMessage (FetchFailed reason);
             details := Some (inr (FetchFailed reason)) |})
  /\ (forall r,
        ok r = false ->
        checkBackendHealth (Responded r)
        = {| connected := false;
             message :=
               NotConnectedMessage
                 (Error ("Backend error: " ++ JsString.of_Z (status r)
                         ++ " " ++ statusText r));
             details :=
               Some (inr (Error ("Backend error: " ++ JsString.of_Z (status r)
                                 ++ " " ++ statusText r))) |})
  /\ (forall r,
        ok r = true -> body_json r = None ->
        checkBackendHealth (Responded r)
        = {| connected := false; message := NotConnectedMessage BodyNotJSON;
             details := Some (inr BodyNotJSON) |})
  /\ (forall r raw,
        ok r = true -> body_json r = Some raw -> entry_present raw = false ->
        checkBackendHealth (Responded r)
        = {| connected := false; message := NotConnectedMessage TypeError;
             details := Some (inr TypeError) |}).
Proof.
  split; [| split; [| split; [| split; [| split]]]].
  - intros net. split.
    + destruct net as [reason | r]; [discriminate |].
      destruct (ok r) eqn:Hok.
      * destruct (body_json r) as [raw |] eqn:Hbody.
        -- destruct (entry_present raw) eqn:P.
           ++ intros _. exists r, raw. auto.
           ++ now rewrite (checkBackendHealth_null r raw Hok Hbody P).
        -- now rewrite (checkBackendHealth_not_json r Hok Hbody).
      * now rewrite (checkBackendHealth_bad_status r Hok).
    + intros (r & raw & -> & Hok & Hbody & P).
      now rewrite (checkBackendHealth_json r raw Hok Hbody P).
  - exact checkBackendHealth_json.
  - exact checkBackendHealth_rejected.
  - exact checkBackendHealth_bad_status.
  - exact checkBackendHealth_not_json.
  - exact checkBackendHealth_null.
Qed.

Lemma health_check_outcome_witness :
  checkBackendHealth
    (Responded {| status := 200; statusText := "OK"; body_text := "";
                  body_json := Some (VObj [("status", VStr "healthy")]) |})
  = {| connected := true; message := ConnectedMessage VUndefined;
       details := Some (inl (VObj [("status", VStr "healthy")])) |}
  /\ checkBackendHealth
       (Responded {| status := 503; statusText := "Service Unavailable";
                     body_text := ""; body_json := None |})
     = {| connected := false;
          message := NotConnectedMessage
                       (Error "Backend error: 503 Service Unavailable");
          details := Some (inr (Error "Backend error: 503 Service Unavailable")) |}
  /\ checkBackendHealth
       (Responded {| status := 200; statusText := "OK"; body_text := "";
                     body_json := Some VNull |})
     = {| connected := false; message := NotConnectedMessage TypeError;
          details := Some (inr TypeError) |}.
Proof.
  destruct health_check_outcome as (_ & Up & _ & Status & _ & Null).
  split; [| split].
  - apply (Up _ (VObj [("status", VStr "healthy")])); reflexivity.
  - apply (Status {| status := 503; statusText := "Service Unavailable";
                     body_text := ""; body_json := None |}). reflexivity.
  - apply (Null _ VNull); reflexivity.
Defined.

(** ** Connection monitor: timers and manual retries in any world *)

Lemma automatic_probing_bounded_witness :
  let down := Rejected "Failed to fetch" in
  let w := run initial_world
             [ Mount; ProbeAnswered 0 down; ProbeAnswered 0 down; TimerFires;
               TimerFires; ProbeAnswered 3 down; ProbeAnswered 0 down;
               TimerFires; ProbeAnswered 0 down ] in
  List.length (requests w) <= 4
  /\ requests w = repeat GetHealth (List.length (requests w))
  /\ Forall (fun delay => delay = 3000%Z) (timers w)
  /\ (quiescent w = true ->
      monitor_state (backendHealth (state w)) = Disconnected
      /\ connectionRetries (state w) = 3
      /\ List.length (requests w) = 4).
Proof.
  cbv zeta.
  apply (automatic_probing_bounded
           [ ProbeAnswered 0 (Rejected "Failed to fetch");
             ProbeAnswered 0 (Rejected "Failed to fetch"); TimerFires;
             TimerFires; ProbeAnswered 3 (Rejected "Failed to fetch");
             ProbeAnswered 0 (Rejected "Failed to fetch");
             TimerFires; ProbeAnswered 0 (Rejected "Failed to fetch") ]).
  reflexivity.
Defined.

(** X12. A retry timer that runs always issues a probe, connected or
    not: it takes the timer off, raises the retry counter by one and,
    because the counter changed, runs the mount effect, which sends one
    GET /health.  Nothing in the component cancels a timer. *)
Theorem timer_always_probes (w : World) (delay : Z) (rest : list Z) :
  timers w = delay :: rest ->
  let w' := step w TimerFires in
  requests w' = (requests w ++ [GetHealth])%list
  /\ probes w' = (probes w ++ [ByEffect (S (connectionRetries (state w)))])%list
  /\ timers w' = rest
  /\ connectionRetries (state w') = S (connectionRetries (state w))
  /\ backendHealth (state w') = backendHealth (state w)
  /\ error (state w') = error (state w).
Proof.
  intros T. cbv zeta. cbn [step]. rewrite T.
  unfold timer_fired, rerender. cbn [state with_state].
  replace (connectionRetries (state w) + 1) with (S (connectionRetries (state w)))
    by lia.
  cbn [connectionRetries setConnectionRetries].
  assert (E : (connectionRetries (state w) =? S (connectionRetries (state w)))%nat
              = false) by (apply Nat.eqb_neq; lia).
  rewrite E. repeat split.
Qed.

Lemma timer_always_probes_witness :
  let up := Responded {| status := 200; statusText := "OK"; body_text := "";
                         body_json := Some (VObj [("port", VNum 5000)]) |} in
  let w := run initial_world
             [ Mount; ProbeAnswered 0 (Rejected "Failed to fetch");
               ClickRetry; ProbeAnswered 0 up ] in
  connected (backendHealth (state w)) = true
  /\ timers w = [3000%Z]
  /\ requests (step w TimerFires) = (requests w ++ [GetHealth])%list
  /\ connectionRetries (state (step w TimerFires)) = 1.
Proof.
  cbv zeta. split; [reflexivity |]. split; [reflexivity |].
  match goal with
  | |- context [step ?w0 TimerFires] =>
      destruct (timer_always_probes w0 3000%Z [] eq_refl) as (R & _ & _ & C & _)
  end.
  split; [exact R | exact C].
Defined.

(** X13. A manual retry in any world sets the retry counter to 0 and
    leaves pending timers alone.  It sends one probe when the counter was
    already 0, and two when it was not: its own and the one of the mount
    effect that the change of the counter runs again. *)
Theorem manual_retry_probes (w : World) :
  let w' := step w ClickRetry in
  connectionRetries (state w') = 0
  /\ timers w' = timers w
  /\ backendHealth (state w') = backendHealth (state w)
  /\ (connectionRetries (state w) = 0 ->
        requests w' = (requests w ++ [GetHealth])%list
        /\ probes w' = (probes w ++ [ByRefresh])%list)
  /\ (connectionRetries (state w) <> 0 ->
        requests w' = (requests w ++ [GetHealth; GetHealth])%list
        /\ probes w' = (probes w ++ [ByRefresh; ByEffect 0])%list).
Proof.
  cbv zeta. cbn [step]. unfold refreshBackendConnection, rerender.
  cbn [state with_state send await_probe connectionRetries setConnectionRetries
       requests probes timers].
  destruct (connectionRetries (state w)) as [| n] eqn:C; cbn [Nat.eqb].
  - repeat split; intros; congruence.
  - unfold initializeBackend.
    cbn [state send await_probe connectionRetries setConnectionRetries
         requests probes timers backendHealth].
    rewrite <- !app_assoc. cbn [app].
    repeat split; intros; congruence.
Qed.

Lemma manual_retry_probes_witness :
  let w := run initial_world
             [ Mount; ProbeAnswered 0 (Rejected "Failed to fetch"); TimerFires ] in
  connectionRetries (state w) = 1
  /\ requests (step w ClickRetry) = [GetHealth; GetHealth; GetHealth; GetHealth]
  /\ requests (step initial_world ClickRetry) = [GetHealth].
Proof.
  cbv zeta. split; [reflexivity |].
  match goal with
  | |- context [requests (step ?w0 ClickRetry)
                = [GetHealth; GetHealth; GetHealth; GetHealth]] =>
      destruct (manual_retry_probes w0) as (_ & _ & _ & _ & Two)
  end.
  destruct (manual_retry_probes initial_world) as (_ & _ & _ & One & _).
  split.
  - destruct Two as [R _]; [discriminate | exact R].
  - destruct One as [R _]; [reflexivity | exact R].
Defined.

(** ** Submitting: the gate, recovery, reset *)

Section Gate.

Lemma nth_error_after {A : Type} (l rest : list A) (x : A) :
  nth_error (l ++ x :: rest) (List.length l) = Some x.
Proof. induction l; cbn; auto. Qed.

Lemma remove_nth_after {A : Type} (l rest : list A) (x : A) :
  remove_nth (List.length l) (l ++ x :: rest) = (l ++ rest)%list.
Proof. induction l as [| y l IH]; cbn; [reflexivity | now rewrite IH]. Qed.

Lemma retry_shape (w : World) :
  state (step w ClickRetry) = setConnectionRetries 0 (state w)
  /\ exists rest,
       probes (step w ClickRetry) = (probes w ++ ByRefresh :: rest)%list.
Proof.
  cbn [step]. unfold refreshBackendConnection, rerender.
  cbn [state with_state send await_probe connectionRetries setConnectionRetries
       requests probes timers].
  destruct (_ =? 0)%nat.
  - split; [reflexivity |]. now exists [].
  - unfold initializeBackend.
    cbn [state send await_probe requests probes timers].
    split; [reflexivity |]. exists [ByEffect 0].
    now rewrite <- app_assoc.
Qed.

(** The retry's own probe answered with success, before any other. *)
Lemma retry_answered (w : World) (net : FetchResult) :
  probe_fails net = false ->
  let retried := step w ClickRetry in
  let answered := step retried (ProbeAnswered (List.length (probes w)) net) in
  state answered
  = setError None
      (setBackendHealth (checkBackendHealth net)
         (setConnectionRetries 0 (state w)))
  /\ requests answered = requests retried.
Proof.
  intros Up. apply negb_false_iff in Up. cbv zeta.
  destruct (retry_shape w) as (S & rest & P).
  remember (step w ClickRetry) as retried eqn:R.
  cbn [step]. rewrite P, nth_error_after.
  unfold probe_answered. rewrite Up.
  cbn [with_state state requests drop_probe]. now rewrite S.
Qed.

End Gate.

(** X14. A submit sends a request exactly when its required-field check
    passes and the backend is connected.  Then the request carries the
    form contents of that moment, the error is cleared, the mode's
    previous result is dropped and every mode shows the spinner;
    otherwise nothing is sent.  Health probes and timers are never
    touched by a submit. *)
Theorem submit_gate (mode : Tab) (w : World) :
  let go := passes_validation mode (state w)
            && connected (backendHealth (state w)) in
  requests (submit mode w)
  = (requests w ++ if go then [request_of mode (state w)] else [])%list
  /\ probes (submit mode w) = probes w
  /\ timers (submit mode w) = timers w
  /\ (go = true ->
        error (state (submit mode w)) = None
        /\ has_result mode (state (submit mode w)) = false
        /\ forall m, phase m (state (submit mode w)) = LoadingPhase).
Proof.
  cbv zeta.
  destruct (passes_validation mode (state w)) eqn:V; cbn [andb].
  - destruct (connected (backendHealth (state w))) eqn:C.
    + destruct mode;
        cbn [passes_validation] in V; apply negb_true_iff in V;
        cbn [submit request_of];
        unfold handleAnalyzeReviews, handleGenerateListing,
               handleExplainPrediction;
        rewrite V, C; cbn [negb];
        (split; [reflexivity |]); (split; [reflexivity |]);
        (split; [reflexivity |]); intros _; repeat split.
    + rewrite (submit_disconnected mode w V C).
      cbn [with_state requests probes timers]. rewrite app_nil_r.
      repeat split; easy.
  - rewrite (submit_invalid mode w V).
    cbn [with_state requests probes timers]. rewrite app_nil_r.
    repeat split; easy.
Qed.

Lemma submit_gate_witness :
  let w := run initial_world
             [ Mount;
               ProbeAnswered 0
                 (Responded {| status := 200; statusText := "OK"; body_text := "";
                               body_json := Some (VObj [("port", VNum 5000)]) |});
               TypeProductReviews "Great product but shipping is slow.";
               TypeCompetitorReviews "Arrived next day" ] in
  requests (submit analysis w)
  = [GetHealth;
     PostAnalyze "Great product but shipping is slow." "Arrived next day"]
  /\ error (state (submit analysis w)) = None
  /\ phase listing (state (submit analysis w)) = LoadingPhase
  /\ requests (submit listing w) = [GetHealth].
Proof.
  cbv zeta.
  match goal with
  | |- context [submit analysis ?w0] =>
      destruct (submit_gate analysis w0) as (Sent & _ & _ & Go);
      destruct (Go eq_refl) as (NoError & _ & Spinner);
      destruct (submit_gate listing w0) as (NotSent & _)
  end.
  split; [exact Sent |]. split; [exact NoError |].
  split; [apply Spinner | exact NotSent].
Defined.

(** X15. Recovery from a submit that was blocked for lack of connection:
    the submit leaves the connectivity message; a manual retry whose own
    probe is answered with success marks the backend connected and
    clears the message; the same submit then sends its request with the
    unchanged form contents. *)
Theorem retry_unblocks_submit (mode : Tab) (w : World) (net : FetchResult) :
  passes_validation mode (state w) = true ->
  connected (backendHealth (state w)) = false ->
  probe_fails net = false ->
  let blocked := submit mode w in
  let retried := step blocked ClickRetry in
  let answered := step retried (ProbeAnswered (List.length (probes w)) net) in
  error (state blocked) = Some connectivity_message
  /\ requests blocked = requests w
  /\ connected (backendHealth (state answered)) = true
  /\ error (state answered) = None
  /\ requests (submit mode answered)
     = (requests answered ++ [request_of mode (state w)])%list
  /\ isLoading (state (submit mode answered)) = true.
Proof.
  intros V Down Up. cbv zeta.
  rewrite (submit_disconnected mode w V Down).
  split; [reflexivity |]. split; [reflexivity |].
  set (blocked := with_state (setError (Some connectivity_message)) w).
  destruct (retry_answered blocked net Up) as (S & _).
  change (probes blocked) with (probes w) in S.
  set (answered := step (step blocked ClickRetry)
                     (ProbeAnswered (List.length (probes w)) net)) in *.
  apply negb_false_iff in Up.
  assert (C' : connected (backendHealth (state answered)) = true)
    by (rewrite S; exact Up).
  assert (V' : passes_validation mode (state answered) = true).
  { rewrite S, <- V. destruct mode; reflexivity. }
  split; [exact C' |]. split; [now rewrite S |].
  destruct (submit_accepted mode answered V' C') as (Sent & Loading & _).
  split; [| exact Loading].
  rewrite Sent, S. destruct mode; reflexivity.
Qed.

Lemma retry_unblocks_submit_witness :
  let up := Responded {| status := 200; statusText := "OK"; body_text := "";
                         body_json := Some (VObj [("port", VNum 5000)]) |} in
  let w := run initial_world
             [ Mount; ProbeAnswered 0 (Rejected "Failed to fetch");
               ClickTab prediction;
               EditPrediction {| modelOutput := "0.87"; inputFeatures := "price";
                                 historicalContext := "" |} ] in
  let answered := step (step (submit prediction w) ClickRetry)
                    (ProbeAnswered 0 up) in
  error (state (submit prediction w)) = Some connectivity_message
  /\ error (state answered) = None
  /\ requests (submit prediction answered)
     = [GetHealth; GetHealth;
        PostExplainPrediction {| modelOutput := "0.87"; inputFeatures := "price";
                                 historicalContext := "" |}].
Proof.
  cbv zeta.
  match goal with
  | |- context [submit prediction ?w0] =>
      destruct (retry_unblocks_submit prediction w0
                  (Responded {| status := 200; statusText := "OK"; body_text := "";
                                body_json := Some (VObj [("port", VNum 5000)]) |})
                  eq_refl eq_refl eq_refl)
        as (Blocked & _ & _ & Cleared & Sent & _)
  end.
  split; [exact Blocked |]. split; [exact Cleared |]. exact Sent.
Defined.

(** X16. Clicking a tab (also the current one) or a reset button clears
    the error and all three results, so every mode falls back to its
    form, or stays on the spinner while a request is in flight.  It never
    touches what was typed into the forms, the loading flag, the
    connection status, or anything of the network: no request is sent or
    cancelled. *)
Theorem reset_clears_results_only (w : World) (e : Event) :
  (e = ClickReset \/ exists tab, e = ClickTab tab) ->
  let w' := step w e in
  error (state w') = None
  /\ (forall m, has_result m (state w') = false)
  /\ (forall m, phase m (state w')
                = if isLoading (state w) then LoadingPhase else InputPhase)
  /\ activeTab (state w')
     = match e with ClickTab tab => tab | _ => activeTab (state w) end
  /\ productAReviews (state w') = productAReviews (state w)
  /\ competitorReviews (state w') = competitorReviews (state w)
  /\ listingInput (state w') = listingInput (state w)
  /\ predInput (state w') = predInput (state w)
  /\ isLoading (state w') = isLoading (state w)
  /\ backendHealth (state w') = backendHealth (state w)
  /\ connectionRetries (state w') = connectionRetries (state w)
  /\ requests w' = requests w
  /\ probes w' = probes w
  /\ timers w' = timers w.
Proof.
  intros [-> | [tab ->]]; cbv zeta;
    (split; [reflexivity |]);
    (split; [intros m; destruct m; reflexivity |]);
    (split; [intros m; unfold phase; cbn;
             destruct (isLoading (state w)); destruct m; reflexivity |]);
    repeat split.
Qed.

Lemma reset_clears_results_only_witness :
  let w := run initial_world
             [ Mount;
               ProbeAnswered 0
                 (Responded {| status := 200; statusText := "OK"; body_text := "";
                               body_json := Some (VObj [("port", VNum 5000)]) |});
               TypeProductReviews "Great product";
               ClickSubmit analysis ] in
  phase analysis (state w) = LoadingPhase
  /\ phase listing (state (step w (ClickTab listing))) = LoadingPhase
  /\ productAReviews (state (step w (ClickTab listing))) = "Great product"
  /\ requests (step w (ClickTab listing)) = [GetHealth; PostAnalyze "Great product" ""].
Proof.
  cbv zeta. split; [reflexivity |].
  match goal with
  | |- context [step ?w0 (ClickTab listing)] =>
      destruct (reset_clears_results_only w0 (ClickTab listing)
                  (or_intror (ex_intro _ listing eq_refl)))
        as (_ & _ & Phases & _ & Reviews & _ & _ & _ & _ & _ & _ & Sent & _)
  end.
  split; [apply Phases |]. split; [exact Reviews | exact Sent].
Defined.

(** ** The handlers after the answer *)

Section Answers.

Variable engine_message : exn -> string.

Lemma listing_resumed (input : ListingInput) (net : FetchResult) (w : World)
    (res : ListingGenerationResponse) :
  generateListing input net = Return res ->
  handleGenerateListing_resumed engine_message input net w
  = with_state (setIsLoading false) (with_state (setListingResult (Some res)) w).
Proof. unfold handleGenerateListing_resumed. now intros ->. Qed.

Lemma prediction_resumed (input : PredictionInput) (net : FetchResult)
    (w : World) (res : PredictionExplanationResponse) :
  explainPrediction input net = Return res ->
  handleExplainPrediction_resumed engine_message input net w
  = with_state (setIsLoading false)
      (with_state (setPredictionResult (Some res)) w).
Proof. unfold handleExplainPrediction_resumed. now intros ->. Qed.

(** The fallback check of [handleAnalyzeReviews] on the fallback itself. *)
Lemma fallback_is_not_detected :
  some_outcome (fun p => value_includes (issue p) "Backend connection")
    (top_pain_points analyzeReviews_fallback)
  = Return false.
Proof. reflexivity. Qed.

Lemma analysis_resumed_result (productReviews competitorReviews : string)
    (net : FetchResult) (w : World) (res : ReviewAnalysisResponse) :
  analyzeReviews productReviews competitorReviews net = Return res ->
  analysisResult
    (state (handleAnalyzeReviews_resumed engine_message productReviews
              competitorReviews net w))
  = Some res
  /\ isLoading
       (state (handleAnalyzeReviews_resumed engine_message productReviews
                 competitorReviews net w))
     = false
  /\ requests (handleAnalyzeReviews_resumed engine_message productReviews
                 competitorReviews net w)
     = requests w.
Proof.
  unfold handleAnalyzeReviews_resumed. intros ->.
  destruct (some_outcome _ _) as [[|] | err]; repeat split.
Qed.


End Answers.

(** X17. Once [generateListing] or [explainPrediction] has resolved, the
    handler stores the result, whatever the network did, and ends the
    loading; its [catch] branch is never taken, so it never sets an
    error: the error is what it was when the answer came. *)
Theorem listing_and_prediction_answers (engine_message : exn -> string)
    (net : FetchResult) (w : World) :
  (forall input,
     let w' := handleGenerateListing_resumed engine_message input net w in
     (exists res, generateListing input net = Return res
                  /\ listingResult (state w') = Some res)
     /\ isLoading (state w') = false
     /\ error (state w') = error (state w)
     /\ requests w' = requests w)
  /\ (forall input,
        let w' := handleExplainPrediction_resumed engine_message input net w in
        (exists res, explainPrediction input net = Return res
                     /\ predictionResult (state w') = Some res)
        /\ isLoading (state w') = false
        /\ error (state w') = error (state w)
        /\ requests w' = requests w).
Proof.
  split; intros input; cbv zeta.
  - destruct (generateListing_returns input net) as [res R].
    rewrite (listing_resumed engine_message input net w res R).
    split; [exists res; split; [exact R | reflexivity] |]. repeat split.
  - destruct (explainPrediction_returns input net) as [res R].
    rewrite (prediction_resumed engine_message input net w res R).
    split; [exists res; split; [exact R | reflexivity] |]. repeat split.
Qed.

(** X18. Once [analyzeReviews] has resolved, the handler stores the
    result and ends the loading in every case.  When the result is the
    fallback (the request failed, or the body could not be converted) no
    message is set at all: the test for fallback data looks for "Backend
    connection" in the issues, which the fallback does not contain. *)
Theorem analysis_answer_is_silent_on_fallback (engine_message : exn -> string)
    (productReviews competitorReviews : string) (net : FetchResult) (w : World) :
  let w' := handleAnalyzeReviews_resumed engine_message productReviews
              competitorReviews net w in
  isLoading (state w') = false
  /\ requests w' = requests w
  /\ exists res,
       analyzeReviews productReviews competitorReviews net = Return res
       /\ analysisResult (state w') = Some res
       /\ (request_failed net = true -> res = analyzeReviews_fallback)
       /\ (res = analyzeReviews_fallback -> error (state w') = error (state w)).
Proof.
  cbv zeta.
  destruct (analyzeReviews_returns productReviews competitorReviews net)
    as [res R].
  destruct (analysis_resumed_result engine_message _ _ net w res R)
    as (Stored & Loading & Sent).
  split; [exact Loading |]. split; [exact Sent |].
  exists res. split; [exact R |]. split; [exact Stored |]. split.
  - intros F. rewrite (analyzeReviews_on_failure _ _ net F) in R.
    now injection R.
  - intros ->. unfold handleAnalyzeReviews_resumed. rewrite R.
    now rewrite fallback_is_not_detected.
Qed.

Lemma analysis_answer_is_silent_on_fallback_witness :
  let w := run initial_world
             [ Mount;
               ProbeAnswered 0
                 (Responded {| status := 200; statusText := "OK"; body_text := "";
                               body_json := Some (VObj [("port", VNum 5000)]) |});
               TypeProductReviews "Great product";
               ClickSubmit analysis ] in
  let w' := handleAnalyzeReviews_resumed (fun _ => "") "Great product" ""
              (Rejected "Failed to fetch") w in
  analysisResult (state w') = Some analyzeReviews_fallback
  /\ error (state w') = None
  /\ isLoading (state w') = false.
Proof.
  cbv zeta.
  match goal with
  | |- context [handleAnalyzeReviews_resumed _ _ _ _ ?w0] =>
      destruct (analysis_answer_is_silent_on_fallback (fun _ => "")
                  "Great product" "" (Rejected "Failed to fetch") w0)
        as (Loading & _ & res & R & Stored & Failed & Silent)
  end.
  specialize (Failed eq_refl). subst res.
  split; [exact Stored |]. split; [exact (Silent eq_refl) | exact Loading].
Defined.

(** X19. The only way into the [catch] of [handleAnalyzeReviews]: a first
    pain point whose issue is neither a string nor an array (a number or
    an object sent by the backend) makes the fallback test throw.  The
    result is then stored and shown all the same, together with the
    message "Intelligence extraction failed: " followed by the engine's
    text for the TypeError, or by "Unknown error" when that is empty. *)
Theorem analysis_check_can_throw (engine_message : exn -> string)
    (productReviews competitorReviews : string) (net : FetchResult) (w : World)
    (res : ReviewAnalysisResponse) (first : PainPoint) (rest : list PainPoint) :
  analyzeReviews productReviews competitorReviews net = Return res ->
  top_pain_points res = first :: rest ->
  Js.is_string (issue first) = false ->
  Js.is_array (issue first) = false ->
  let w' := handleAnalyzeReviews_resumed engine_message productReviews
              competitorReviews net w in
  analysisResult (state w') = Some res
  /\ isLoading (state w') = false
  /\ error (state w')
     = Some ("Intelligence extraction failed: "
             ++ or_text (engine_message TypeError) "Unknown error").
Proof.
  intros R Points NotString NotArray. cbv zeta.
  destruct (analysis_resumed_result engine_message _ _ net w res R)
    as (Stored & Loading & _).
  split; [exact Stored |]. split; [exact Loading |].
  unfold handleAnalyzeReviews_resumed. rewrite R, Points.
  cbn [some_outcome].
  assert (T : value_includes (issue first) "Backend connection" = Throw TypeError).
  { destruct (issue first); try discriminate; reflexivity. }
  rewrite T. reflexivity.
Qed.

Lemma analysis_check_can_throw_witness :
  let net := Responded
               {| status := 200; statusText := "OK"; body_text := "";
                  body_json :=
                    Some (VObj [("top_pain_points",
                                 VArr [VObj [("issue", VNum 404)]])]) |} in
  let w' := handleAnalyzeReviews_resumed (fun _ => "") "Great product" "" net
              initial_world in
  (exists res, analysisResult (state w') = Some res
               /\ List.length (top_pain_points res) = 1)
  /\ error (state w') = Some "Intelligence extraction failed: Unknown error".
Proof.
  cbv zeta.
  match goal with
  | |- context [handleAnalyzeReviews_resumed _ _ _ ?n _] =>
      destruct (analysis_check_can_throw (fun _ => "") "Great product" "" n
                  initial_world _ _ _ eq_refl eq_refl eq_refl eq_refl)
        as (Stored & _ & Message)
  end.
  split; [eexists; split; [exact Stored | reflexivity] | exact Message].
Defined.



(** ** The result views on what the service calls return *)

Section Views.

Lemma frequency_badge_coloured (f : Frequency.t) :
  Frequency.member f = true ->
  In (FrequencyBadge.getColors f)
     [ "bg-red-100 text-red-700 border-red-200";
       "bg-amber-100 text-amber-700 border-amber-200";
       "bg-blue-100 text-blue-700 border-blue-200" ].
Proof.
  intros M. apply member_cases in M as [-> | [-> | ->]]; cbn; auto.
Qed.

Lemma impact_bar_coloured (i : ImpactLevel.t) :
  ImpactLevel.member i = true ->
  In (PredictionResult.getImpactColor i, PredictionResult.bar_width i)
     [ ("bg-red-500", "100%"); ("bg-amber-500", "60%"); ("bg-blue-500", "30%") ].
Proof.
  intros M. apply member_cases in M as [-> | [-> | ->]]; cbn; auto.
Qed.

Lemma listing_index_array (elems : list value) (i : nat) :
  List.length elems <= i -> ListingResult.index (VArr elems) i = Return VUndefined.
Proof.
  intros L. cbn. apply nth_error_None in L. now rewrite L.
Qed.

End Views.

(** X21. The views never fall into a default branch by accident.
    Whatever the network does, every frequency badge of the analysis
    result gets the red, amber or blue classes, never the gray ones, and
    the headline is "Neutral Pulse" only for a neutral result; every
    factor of the prediction result gets a bar whose colour and width
    agree (red and 100%, amber and 60%, blue and 30%), and the confidence
    gets the red cross only when it is low. *)
Theorem result_badges_are_coloured :
  (forall productReviews competitorReviews net res,
     analyzeReviews productReviews competitorReviews net = Return res ->
     Forall (fun p => In (FrequencyBadge.getColors (pp_frequency_estimate p))
                         [ "bg-red-100 text-red-700 border-red-200";
                           "bg-amber-100 text-amber-700 border-amber-200";
                           "bg-blue-100 text-blue-700 border-blue-200" ])
            (top_pain_points res)
     /\ Forall (fun p => In (FrequencyBadge.getColors (pf_frequency_estimate p))
                            [ "bg-red-100 text-red-700 border-red-200";
                              "bg-amber-100 text-amber-700 border-amber-200";
                              "bg-blue-100 text-blue-700 border-blue-200" ])
               (top_positive_features res)
     /\ (AnalysisResult.label
           (AnalysisResult.getSentimentStyling (overall_sentiment res))
         = "Neutral Pulse" -> overall_sentiment res = "neutral"))
  /\ (forall input net res,
        explainPrediction input net = Return res ->
        Forall (fun f => In (PredictionResult.getImpactColor (impact f),
                             PredictionResult.bar_width (impact f))
                            [ ("bg-red-500", "100%"); ("bg-amber-500", "60%");
                              ("bg-blue-500", "30%") ])
               (key_factors res)
        /\ (PredictionResult.icon
              (PredictionResult.getConfidenceLevel (confidence_level res))
            = "fa-circle-xmark" -> confidence_level res = "low")).
Proof.
  split.
  - intros productReviews competitorReviews net res R.
    assert (S : Sentiment.member (overall_sentiment res) = true).
    { apply analyzeReviews_cases in R as [-> | [raw N]]; [reflexivity |].
      destruct (normalizeReviewAnalysis_fields raw res N) as (S & _).
      now apply toSentiment_member in S. }
    assert (H : AnalysisResult.label
                  (AnalysisResult.getSentimentStyling (overall_sentiment res))
                = "Neutral Pulse" -> overall_sentiment res = "neutral").
    { apply member_cases in S as [-> | [-> | ->]]; cbn; easy. }
    apply analyzeReviews_cases in R as [-> | [raw N]].
    + split; [| split; [| exact H]];
        repeat (apply Forall_cons; [cbn; auto |]); apply Forall_nil.
    + destruct (normalizeReviewAnalysis_fields raw res N)
        as (_ & Pain & Positive & _).
      split; [| split; [| exact H]].
      * apply (map_Forall _ _ _ _ convert_pain_point_well_formed) in Pain.
        eapply Forall_impl; [| exact Pain].
        intros p (M & _). now apply frequency_badge_coloured.
      * apply (map_Forall _ _ _ _ convert_positive_feature_well_formed) in Positive.
        eapply Forall_impl; [| exact Positive].
        intros p (M & _). now apply frequency_badge_coloured.
  - intros input net res R.
    assert (C : ImpactLevel.member (confidence_level res) = true).
    { apply explainPrediction_cases in R as [-> | [raw N]]; [reflexivity |].
      destruct (normalizePrediction_fields raw res N) as (_ & _ & C).
      now apply toImpact_member in C. }
    split; [| apply member_cases in C as [-> | [-> | ->]]; cbn; easy].
    apply explainPrediction_cases in R as [-> | [raw N]].
    + repeat (apply Forall_cons; [cbn; auto |]); apply Forall_nil.
    + destruct (normalizePrediction_fields raw res N) as (Factors & _).
      apply (map_Forall _ _ _ _ convert_factor_well_formed) in Factors.
      eapply Forall_impl; [| exact Factors].
      intros f (M & _). now apply impact_bar_coloured.
Qed.

Lemma result_badges_are_coloured_witness :
  exists res,
    explainPrediction (predInput initial_state)
      (Responded
         {| status := 200; statusText := "OK"; body_text := "";
            body_json :=
              Some (VObj [("key_factors",
                           VArr [VObj [("impact", VStr "HIGH")];
                                 VObj [("impact", VStr "severe")]])]) |})
    = Return res
    /\ Forall (fun f => In (PredictionResult.getImpactColor (impact f),
                           PredictionResult.bar_width (impact f))
                          [ ("bg-red-500", "100%"); ("bg-amber-500", "60%");
                            ("bg-blue-500", "30%") ])
              (key_factors res).
Proof.
  eexists. split; [reflexivity |].
  eapply (proj2 result_badges_are_coloured (predInput initial_state)
           (Responded
              {| status := 200; statusText := "OK"; body_text := "";
                 body_json :=
                   Some (VObj [("key_factors",
                                VArr [VObj [("impact", VStr "HIGH")];
                                      VObj [("impact", VStr "severe")]])]) |})).
  reflexivity.
Defined.

(** X22. The listing view offers one variant per title.  When a result
    has more titles than bullet lists, each variant beyond the bullet
    lists is offered but its "Copy All" click throws a TypeError, and
    beyond the descriptions nothing is shown as description.  The result
    of every failed request is such a result: variants 0, 1 and 2 are
    offered and the third has neither description nor bullets. *)
Theorem variants_beyond_the_bullets :
  (forall data titles bullets i,
     product_title_variants data = VArr titles ->
     bullet_point_variants data = VArr bullets ->
     i < List.length titles -> List.length bullets <= i ->
     (exists buttons,
        ListingResult.variant_buttons data = Return buttons /\ In i buttons)
     /\ ListingResult.bullets_to_copy data i = Throw TypeError)
  /\ (forall data descriptions i,
        full_description_variants data = VArr descriptions ->
        List.length descriptions <= i ->
        ListingResult.shown_description data i = Return VUndefined)
  /\ (forall input net,
        request_failed net = true ->
        exists data,
          generateListing input net = Return data
          /\ ListingResult.variant_buttons data = Return [0; 1; 2]
          /\ returns (ListingResult.bullets_to_copy data 1) = true
          /\ ListingResult.bullets_to_copy data 2 = Throw TypeError
          /\ ListingResult.shown_description data 2 = Return VUndefined).
Proof.
  split; [| split].
  - intros data titles bullets i T B Offered Missing. split.
    + unfold ListingResult.variant_buttons. rewrite T. cbn [Js.map].
      assert (M : map_outcome (fun title : value => Return title) titles
                  = Return titles).
      { clear. induction titles as [| t titles IH]; cbn; [reflexivity |].
        now rewrite IH. }
      rewrite M. cbn [bind]. eexists; split; [reflexivity |].
      apply in_seq. lia.
    + unfold ListingResult.bullets_to_copy. rewrite B.
      now rewrite (listing_index_array bullets i Missing).
  - intros data descriptions i D Missing.
    unfold ListingResult.shown_description. rewrite D.
    now apply listing_index_array.
  - intros input net F. rewrite (generateListing_on_failure input net F).
    eexists; split; [reflexivity |]. repeat split.
Qed.

Lemma variants_beyond_the_bullets_witness :
  let input := {| productName := "Lamp"; category := "Home"; features := "dimmable";
                  targetAudience := "readers"; brandTone := "Professional" |} in
  exists data,
    generateListing input (Rejected "Failed to fetch") = Return data
    /\ ListingResult.variant_buttons data = Return [0; 1; 2]
    /\ ListingResult.bullets_to_copy data 2 = Throw TypeError
    /\ ListingResult.shown_description data 2 = Return VUndefined.
Proof.
  cbv zeta.
  destruct (proj2 (proj2 variants_beyond_the_bullets)
              {| productName := "Lamp"; category := "Home"; features := "dimmable";
                 targetAudience := "readers"; brandTone := "Professional" |}
              (Rejected "Failed to fetch") eq_refl)
    as (data & R & Buttons & _ & Copy & Shown).
  exists data. auto.
Defined.
